(** * NextGenFitness backend: the signup/login service and the database manager

    A shallow embedding of [backend/NextGenFItness.py] (the HTTP handlers
    [init_db], [signup], [login], [forgot_password], [reset_password]) and
    of [backend/db_manager.py] (the methods [view_table_data],
    [insert_record], [update_record], [delete_record], [delete_table] and
    [modify_table] of [NextGenFitnessDB], and the test [create_new_table]
    puts names to).

    Both programs talk to one relational store through SQL statements.  The
    store is modelled as a catalog of tables; the statements the programs
    issue are given their meaning in [Module Sqlite].  What the engine does
    to a single value (conversion by column affinity, equality, sort order)
    is kept behind the interface [Engine]: the general theorems hold for any
    engine, and [sqlite_engine] is the instance used to run the programs on
    concrete stores.

    Scope of the store model: table and column names are plain identifiers
    (letters, digits, underscore; no SQL keyword, no quoting, not one of the
    implicit row-id names; [Sqlite.identifier]), compared without regard
    to case as the engine does; views, virtual tables, indexes created
    apart from a table, triggers and foreign keys are absent.  The strings
    the programs read are ASCII text ([Vocabulary.ascii_text]): the
    functions of [Module Py] give Python's answers on such text. *)

From Stdlib Require Import List String Ascii ZArith Bool Lia DecimalString.
Import ListNotations.
Local Open Scope string_scope.
Local Open Scope Z_scope.

(** ** Python strings *)

Module Py.

Definition code (c : ascii) : nat := nat_of_ascii c.

Definition is_digit (c : ascii) : bool :=
  ((48 <=? code c) && (code c <=? 57))%nat.

Definition is_upper (c : ascii) : bool :=
  ((65 <=? code c) && (code c <=? 90))%nat.

Definition is_lower (c : ascii) : bool :=
  ((97 <=? code c) && (code c <=? 122))%nat.

(** The ASCII characters [str.strip()] removes: TAB, LF, VT, FF, CR, the
    four separators FS..US and the space. *)
Definition is_space (c : ascii) : bool :=
  ((9 <=? code c) && (code c <=? 13) || (28 <=? code c) && (code c <=? 32))%nat.

Definition lower_ascii (c : ascii) : ascii :=
  if is_upper c then ascii_of_nat (code c + 32) else c.

Definition upper_ascii (c : ascii) : ascii :=
  if is_lower c then ascii_of_nat (code c - 32) else c.

(** [s.lower()] and [s.upper()] on ASCII text. *)
Fixpoint lower (s : string) : string :=
  match s with
  | EmptyString => EmptyString
  | String c s' => String (lower_ascii c) (lower s')
  end.

Fixpoint upper (s : string) : string :=
  match s with
  | EmptyString => EmptyString
  | String c s' => String (upper_ascii c) (upper s')
  end.

Fixpoint lstrip (s : string) : string :=
  match s with
  | String c s' => if is_space c then lstrip s' else s
  | EmptyString => EmptyString
  end.

Fixpoint rstrip (s : string) : string :=
  match s with
  | EmptyString => EmptyString
  | String c s' =>
      match rstrip s' with
      | EmptyString => if is_space c then EmptyString else String c EmptyString
      | r => String c r
      end
  end.

(** [s.strip()] on ASCII text. *)
Definition strip (s : string) : string := rstrip (lstrip s).

(** Truth value of a string: [if value] holds for a non-empty one. *)
Definition truthy (s : string) : bool :=
  match s with EmptyString => false | _ => true end.

(** [s[1:]] *)
Definition tail (s : string) : string :=
  match s with EmptyString => EmptyString | String _ s' => s' end.

Definition digit_val (c : ascii) : Z := Z.of_nat (code c - 48).

(** The digits of a decimal literal, where single underscores may separate
    digits: [digit ("_"? digit)*]. *)
Fixpoint digits (after_digit : bool) (acc : Z) (s : string) : option Z :=
  match s with
  | EmptyString => if after_digit then Some acc else None
  | String c s' =>
      if is_digit c then digits true (10 * acc + digit_val c) s'
      else if after_digit && Ascii.eqb c "_" then digits false acc s'
      else None
  end.

(** The blanks [int] and [float] skip around a literal of ASCII text:
    TAB, LF, VT, FF, CR and the space, and not the separators FS..US that
    [str.strip] removes as well. *)
Definition is_blank (c : ascii) : bool :=
  ((9 <=? code c) && (code c <=? 13) || (code c =? 32))%nat.

Fixpoint skip_left (s : string) : string :=
  match s with
  | String c s' => if is_blank c then skip_left s' else s
  | EmptyString => EmptyString
  end.

Fixpoint skip_right (s : string) : string :=
  match s with
  | EmptyString => EmptyString
  | String c s' =>
      match skip_right s' with
      | EmptyString => if is_blank c then EmptyString else String c EmptyString
      | r => String c r
      end
  end.

Definition skip_blanks (s : string) : string := skip_right (skip_left s).

(** [int(s)] for a string of ASCII text: surrounding blanks, an optional
    sign, then decimal digits.  [None] is the [ValueError]. *)
Definition int (s : string) : option Z :=
  match skip_blanks s with
  | String "-" d => option_map Z.opp (digits false 0 d)
  | String "+" d => digits false 0 d
  | d => digits false 0 d
  end.

(** The rest of the input after a leading digit part, if there is one. *)
Fixpoint digitpart (after_digit : bool) (s : string) : option string :=
  match s with
  | EmptyString => if after_digit then Some EmptyString else None
  | String c s' =>
      if is_digit c then digitpart true s'
      else if after_digit && Ascii.eqb c "_" then
        match s' with
        | String d _ => if is_digit d then digitpart false s' else None
        | EmptyString => None
        end
      else if after_digit then Some s else None
  end.

Definition exponent (s : string) : bool :=
  match s with
  | EmptyString => true
  | String e s' =>
      if Ascii.eqb (lower_ascii e) "e" then
        let d := match s' with
                 | String "+" d => d
                 | String "-" d => d
                 | d => d
                 end in
        match digitpart false d with
        | Some EmptyString => true
        | _ => false
        end
      else false
  end.

Definition unsigned_float (s : string) : bool :=
  let l := lower s in
  if String.eqb l "inf" || String.eqb l "infinity" || String.eqb l "nan" then true
  else
    match s with
    | String "." f =>
        match digitpart false f with
        | Some r => exponent r
        | None => false
        end
    | _ =>
        match digitpart false s with
        | Some (String "." f) =>
            match digitpart false f with
            | Some r => exponent r
            | None => exponent f
            end
        | Some r => exponent r
        | None => false
        end
    end.

(** [float(s)] for a string of ASCII text.  The binary64 value is not
    computed: a literal that [float] accepts is kept as its text without
    the surrounding blanks, and [None] is the [ValueError]. *)
Definition float (s : string) : option string :=
  let t := skip_blanks s in
  let u := match t with
           | String "+" d => d
           | String "-" d => d
           | d => d
           end in
  if unsigned_float u then Some t else None.

(** [str(n)] for an integer. *)
Definition str (z : Z) : string := NilZero.string_of_int (Z.to_int z).

Fixpoint zeros (n : nat) : string :=
  match n with O => "" | S n' => String "0" (zeros n') end.

(** [f"{z:03d}"]: the sign counts towards the width of three. *)
Definition format_03d (z : Z) : string :=
  if z <? 0 then
    let d := str (- z) in "-" ++ zeros (2 - String.length d) ++ d
  else
    let d := str z in zeros (3 - String.length d) ++ d.

Definition is_alnum (c : ascii) : bool := is_digit c || is_upper c || is_lower c.

(** [s.replace('_', '')] *)
Fixpoint drop_underscores (s : string) : string :=
  match s with
  | EmptyString => EmptyString
  | String c s' =>
      if Ascii.eqb c "_" then drop_underscores s' else String c (drop_underscores s')
  end.

Fixpoint all_alnum (s : string) : bool :=
  match s with
  | EmptyString => true
  | String c s' => is_alnum c && all_alnum s'
  end.

(** [s.isalnum()] on ASCII text: at least one character, and letters and
    digits only. *)
Definition isalnum (s : string) : bool := truthy s && all_alnum s.

End Py.

(** ** The relational store *)

Module Sqlite.

(** A stored or bound value.  A REAL is carried as the literal it was read
    from (see [Py.float]). *)
Inductive value : Type :=
| VNull
| VInt (z : Z)
| VReal (lit : string)
| VText (s : string).

(** A column of the catalog.  [cpk] is the position of the column within
    the primary key, counted from one, and zero outside it, as
    [PRAGMA table_info] reports it; [cunique] records a UNIQUE constraint,
    which the pragma does not show. *)
Record column : Type := Column {
  cname : string;
  ctype : string;
  cnotnull : bool;
  cdflt : option string;
  cpk : nat;
  cunique : bool
}.

Definition row : Type := list value.

Record table : Type := Table {
  tname : string;
  tcols : list column;
  trows : list row
}.

(** The catalog, in creation order. *)
Definition store : Type := list table.

Inductive sql_error : Type :=
| NoSuchTable (name : string)
| NoSuchColumn (name : string)
| TableExists (name : string)
| DuplicateColumn (name : string)
| SyntaxError
| ConstraintFailed
| DatatypeMismatch
| IoError.

Inductive affinity : Type := AffInteger | AffText | AffBlob | AffReal | AffNumeric.

(** What the engine does to single values. *)
Class Engine : Type := {
  (** conversion of a value written to, or compared with, a column *)
  apply_affinity : affinity -> value -> value;
  (** the [=] of a WHERE clause and of uniqueness checks *)
  value_eqb : value -> value -> bool;
  (** strictly-before in the order of ORDER BY *)
  value_ltb : value -> value -> bool;
  (** the value of a DEFAULT expression *)
  default_value : string -> value
}.

(** Names are compared without regard to case. *)
Definition name_eqb (a b : string) : bool := String.eqb (Py.lower a) (Py.lower b).

Fixpoint contains (p s : string) : bool :=
  String.prefix p s ||
  match s with
  | EmptyString => false
  | String _ s' => contains p s'
  end.

(** The keywords of the engine, in lower case. *)
Definition keywords : list string :=
  [ "abort"; "action"; "add"; "after"; "all"; "alter"; "always"; "analyze";
    "and"; "as"; "asc"; "attach"; "autoincrement"; "before"; "begin";
    "between"; "by"; "cascade"; "case"; "cast"; "check"; "collate";
    "column"; "commit"; "conflict"; "constraint"; "create"; "cross";
    "current"; "current_date"; "current_time"; "current_timestamp";
    "database"; "default"; "deferrable"; "deferred"; "delete"; "desc";
    "detach"; "distinct"; "do"; "drop"; "each"; "else"; "end"; "escape";
    "except"; "exclude"; "exclusive"; "exists"; "explain"; "fail";
    "filter"; "first"; "following"; "for"; "foreign"; "from"; "full";
    "generated"; "glob"; "group"; "groups"; "having"; "if"; "ignore";
    "immediate"; "in"; "index"; "indexed"; "initially"; "inner"; "insert";
    "instead"; "intersect"; "into"; "is"; "isnull"; "join"; "key"; "last";
    "left"; "like"; "limit"; "match"; "materialized"; "natural"; "no";
    "not"; "nothing"; "notnull"; "null"; "nulls"; "of"; "offset"; "on";
    "or"; "order"; "others"; "outer"; "over"; "partition"; "plan";
    "pragma"; "preceding"; "primary"; "query"; "raise"; "range";
    "recursive"; "references"; "regexp"; "reindex"; "release"; "rename";
    "replace"; "restrict"; "returning"; "right"; "rollback"; "row"; "rows";
    "savepoint"; "select"; "set"; "table"; "temp"; "temporary"; "then";
    "ties"; "to"; "transaction"; "trigger"; "unbounded"; "union"; "unique";
    "update"; "using"; "vacuum"; "values"; "view"; "virtual"; "when";
    "where"; "window"; "with"; "without" ].

(** Words the engine reads as a value where a column could stand: the
    names of the row id and the truth values. *)
Definition value_words : list string :=
  ["rowid"; "oid"; "_rowid_"; "true"; "false"].

(** Names the engine answers for without a table of the schema behind
    them, or keeps for its own tables: [sqlite_master], [sqlite_sequence],
    the table-valued pragmas and functions. *)
Definition internal (name : string) : bool :=
  let n := Py.lower name in
  String.prefix "sqlite_" n || String.prefix "pragma_" n
  || existsb (String.eqb n) ["json_each"; "json_tree"; "dbstat"; "fts3tokenize"].

Definition identifier_char (c : ascii) : bool :=
  Py.is_alnum c || Ascii.eqb c "_".

(** A plain identifier: letters, digits and underscores of ASCII, no
    digit in front, not a keyword, not a word the engine reads as a value
    and not an internal name.  The programs paste names into the text of
    their statements; the statements of this module give the meaning of
    that text when the names are plain identifiers, and only then. *)
Definition identifier (s : string) : bool :=
  match s with
  | EmptyString => false
  | String c _ => negb (Py.is_digit c)
  end
  && forallb identifier_char (list_ascii_of_string s)
  && negb (existsb (String.eqb (Py.lower s)) (keywords ++ value_words)%list)
  && negb (internal s).

(** The affinity of a declared type. *)
Definition affinity_of (decl : string) : affinity :=
  let d := Py.upper decl in
  if contains "INT" d then AffInteger
  else if contains "CHAR" d || contains "CLOB" d || contains "TEXT" d then AffText
  else if contains "BLOB" d || String.eqb d "" then AffBlob
  else if contains "REAL" d || contains "FLOA" d || contains "DOUB" d then AffReal
  else AffNumeric.

(** The affinity a bound parameter takes when compared with a column. *)
Definition comparison_affinity (a : affinity) : affinity :=
  match a with
  | AffInteger | AffReal | AffNumeric => AffNumeric
  | AffText => AffText
  | AffBlob => AffBlob
  end.

(** The type name CREATE TABLE ... AS SELECT gives a column. *)
Definition ctas_type (a : affinity) : string :=
  match a with
  | AffInteger => "INT"
  | AffText => "TEXT"
  | AffBlob => ""
  | AffReal => "REAL"
  | AffNumeric => "NUM"
  end.

Fixpoint find_table (s : store) (name : string) : option table :=
  match s with
  | [] => None
  | t :: s' => if name_eqb (tname t) name then Some t else find_table s' name
  end.

(** Replaces the table called [name] by [t']. *)
Fixpoint set_table (s : store) (name : string) (t' : table) : store :=
  match s with
  | [] => []
  | t :: s' =>
      if name_eqb (tname t) name then t' :: s' else t :: set_table s' name t'
  end.

Fixpoint remove_table (s : store) (name : string) : store :=
  match s with
  | [] => []
  | t :: s' => if name_eqb (tname t) name then s' else t :: remove_table s' name
  end.

(** The position of the column a name refers to. *)
Fixpoint resolve (cols : list column) (name : string) : option nat :=
  match cols with
  | [] => None
  | c :: cols' =>
      if name_eqb (cname c) name then Some O
      else option_map S (resolve cols' name)
  end.

Definition cell (r : row) (i : nat) : value := nth i r VNull.

(** The row of [PRAGMA table_info]: (cid, name, type, notnull, dflt_value, pk). *)
Record info : Type := Info {
  i_cid : nat;
  i_name : string;
  i_type : string;
  i_notnull : bool;
  i_dflt : option string;
  i_pk : nat
}.

Fixpoint infos (cid : nat) (cols : list column) : list info :=
  match cols with
  | [] => []
  | c :: cols' =>
      Info cid (cname c) (ctype c) (cnotnull c) (cdflt c) (cpk c) :: infos (S cid) cols'
  end.

(** [PRAGMA table_info(name)], for a plain identifier [name]: no row for
    a table that does not exist. *)
Definition table_info (s : store) (name : string) : list info :=
  match find_table s name with
  | Some t => infos 0 (tcols t)
  | None => []
  end.

(** [SELECT * FROM name] *)
Definition select_all (s : store) (name : string) : sql_error + list row :=
  match find_table s name with
  | Some t => inr (trows t)
  | None => inl (NoSuchTable name)
  end.

Fixpoint resolve_all (cols : list column) (names : list string)
  : sql_error + list nat :=
  match names with
  | [] => inr []
  | n :: names' =>
      match resolve cols n with
      | None => inl (NoSuchColumn n)
      | Some i =>
          match resolve_all cols names' with
          | inl e => inl e
          | inr ix => inr (i :: ix)
          end
      end
  end.

Definition project (ix : list nat) (r : row) : row := map (cell r) ix.

(** The name a result column gets when [seen] already holds its name: the
    name followed by [:1], [:2], ... until it is new.  (The engine draws the
    number at random after the third collision; [fuel] bounds the search.) *)
Fixpoint fresh_name (fuel : nat) (seen : list string) (base : string) (k : Z)
  : string :=
  let cand := base ++ ":" ++ Py.str k in
  match fuel with
  | O => cand
  | S fuel' =>
      if existsb (name_eqb cand) seen then fresh_name fuel' seen base (k + 1)
      else cand
  end.

Fixpoint unique_names (seen : list string) (names : list string) : list string :=
  match names with
  | [] => []
  | n :: names' =>
      let n' := if existsb (name_eqb n) seen
                then fresh_name (List.length seen) seen n 1 else n in
      n' :: unique_names (n' :: seen) names'
  end.

Fixpoint set_nth (i : nat) (v : value) (r : row) : row :=
  match r, i with
  | [], _ => []
  | _ :: r', O => v :: r'
  | x :: r', S i' => x :: set_nth i' v r'
  end.

Definition column_at (cols : list column) (i : nat) : column :=
  nth i cols (Column "" "" false None 0 false).

Definition is_null (v : value) : bool :=
  match v with VNull => true | _ => false end.

Fixpoint positions (p : column -> bool) (i : nat) (cols : list column) : list nat :=
  match cols with
  | [] => []
  | c :: cols' => if p c then i :: positions p (S i) cols' else positions p (S i) cols'
  end.

Definition in_pk (c : column) : bool := negb (Nat.eqb (cpk c) 0).

Definition pk_positions (cols : list column) : list nat := positions in_pk 0 cols.

(** The column that stands for the row id: a primary key made of one
    column whose declared type is INTEGER. *)
Definition rowid_alias (cols : list column) : option nat :=
  match pk_positions cols with
  | [i] => if String.eqb (Py.upper (ctype (column_at cols i))) "INTEGER"
           then Some i else None
  | _ => None
  end.

(** The sets of columns whose values no two rows may share: the primary
    key and every UNIQUE column. *)
Definition keys (cols : list column) : list (list nat) :=
  (match pk_positions cols with
  | [] => []
  | k => [k]
  end ++ map (fun i => [i]) (positions cunique 0 cols))%list.

Section Statements.

Context {E : Engine}.

Definition where_eq (c : column) (stored param : value) : bool :=
  value_eqb stored
    (apply_affinity (comparison_affinity (affinity_of (ctype c))) param).

(** [SELECT * FROM name WHERE col = ?] *)
Definition select_where (s : store) (name col : string) (param : value)
  : sql_error + list row :=
  match find_table s name with
  | None => inl (NoSuchTable name)
  | Some t =>
      match resolve (tcols t) col with
      | None => inl (NoSuchColumn col)
      | Some k =>
          inr (filter (fun r => where_eq (column_at (tcols t) k) (cell r k) param)
                 (trows t))
      end
  end.

(** [SELECT out FROM name WHERE col = ?] *)
Definition select_column_where (s : store) (name out col : string) (param : value)
  : sql_error + list row :=
  match find_table s name with
  | None => inl (NoSuchTable name)
  | Some t =>
      match resolve (tcols t) out with
      | None => inl (NoSuchColumn out)
      | Some o =>
          match select_where s name col param with
          | inl e => inl e
          | inr rows => inr (map (project [o]) rows)
          end
      end
  end.

Definition later (best : option value) (v : value) : option value :=
  match best with
  | None => Some v
  | Some b => if value_ltb b v then Some v else Some b
  end.

(** [SELECT col FROM name ORDER BY col DESC LIMIT 1] *)
Definition select_last (s : store) (name col : string) : sql_error + list row :=
  match find_table s name with
  | None => inl (NoSuchTable name)
  | Some t =>
      match resolve (tcols t) col with
      | None => inl (NoSuchColumn col)
      | Some k =>
          match fold_left later (map (fun r => cell r k) (trows t)) None with
          | None => inr []
          | Some v => inr [[v]]
          end
      end
  end.

Definition clashes (k : list nat) (r1 r2 : row) : bool :=
  forallb (fun i => value_eqb (cell r1 i) (cell r2 i)) k.

Definition clashes_any (ks : list (list nat)) (r1 r2 : row) : bool :=
  existsb (fun k => clashes k r1 r2) ks.

Definition not_null_ok (cols : list column) (r : row) : bool :=
  forallb (fun cv => negb (cnotnull (fst cv) && is_null (snd cv))) (combine cols r).

Definition next_rowid (i : nat) (rows : list row) : Z :=
  fold_left (fun m r => match cell r i with
                        | VInt z => Z.max m (z + 1)
                        | _ => m
                        end) rows 1.

(** The value of the row-id column of a new or changed row. *)
Definition with_rowid (cols : list column) (rows : list row) (r : row)
  : sql_error + row :=
  match rowid_alias cols with
  | None => inr r
  | Some i =>
      match cell r i with
      | VNull => inr (set_nth i (VInt (next_rowid i rows)) r)
      | VInt _ => inr r
      | _ => inl DatatypeMismatch
      end
  end.

Definition convert (cols : list column) (r : row) : row :=
  map (fun cv => apply_affinity (affinity_of (ctype (fst cv))) (snd cv))
      (combine cols r).

(** The row an INSERT that names the columns [ix] builds: a column left
    out takes its default. *)
Fixpoint named_value (ix : list nat) (vals : list value) (i : nat) : option value :=
  match ix, vals with
  | j :: ix', v :: vals' => if Nat.eqb i j then Some v else named_value ix' vals' i
  | _, _ => None
  end.

Definition default_of (c : column) : value :=
  match cdflt c with
  | None => VNull
  | Some e => default_value e
  end.

Fixpoint build_row (cols : list column) (ix : list nat) (vals : list value) (i : nat)
  : row :=
  match cols with
  | [] => []
  | c :: cols' =>
      match named_value ix vals i with
      | Some v => v
      | None => default_of c
      end :: build_row cols' ix vals (S i)
  end.

(** The place of a new row among the rows as a SELECT without ORDER BY
    reads them, which is by row id: where a column stands for the row id,
    before the first row with a larger one; in any other table the new
    row is given the largest row id and comes last. *)
Fixpoint place_by_rowid (i : nat) (r : row) (rows : list row) : list row :=
  match rows with
  | [] => [r]
  | x :: rows' =>
      match cell r i, cell x i with
      | VInt a, VInt b =>
          if a <? b then r :: rows else x :: place_by_rowid i r rows'
      | _, _ => x :: place_by_rowid i r rows'
      end
  end.

Definition place_row (cols : list column) (rows : list row) (r : row) : list row :=
  match rowid_alias cols with
  | Some i => place_by_rowid i r rows
  | None => (rows ++ [r])%list
  end.

(** [INSERT INTO name (names) VALUES (?, ..., ?)] *)
Definition insert_into (s : store) (name : string) (names : list string)
  (vals : list value) : sql_error + store :=
  match find_table s name with
  | None => inl (NoSuchTable name)
  | Some t =>
      match resolve_all (tcols t) names with
      | inl e => inl e
      | inr ix =>
          if negb (Nat.eqb (List.length names) (List.length vals)) then inl SyntaxError
          else
            match with_rowid (tcols t) (trows t)
                    (convert (tcols t) (build_row (tcols t) ix vals 0)) with
            | inl e => inl e
            | inr r =>
                if negb (not_null_ok (tcols t) r) then inl ConstraintFailed
                else if existsb (clashes_any (keys (tcols t)) r) (trows t)
                then inl ConstraintFailed
                else inr (set_table s name
                            (Table (tname t) (tcols t)
                               (place_row (tcols t) (trows t) r)))
            end
      end
  end.

Fixpoint resolve_sets (cols : list column) (sets : list (string * value))
  : sql_error + list (nat * value) :=
  match sets with
  | [] => inr []
  | (n, v) :: sets' =>
      match resolve cols n with
      | None => inl (NoSuchColumn n)
      | Some i =>
          match resolve_sets cols sets' with
          | inl e => inl e
          | inr a =>
              inr ((i, apply_affinity (affinity_of (ctype (column_at cols i))) v) :: a)
          end
      end
  end.

Definition assign (a : list (nat * value)) (r : row) : row :=
  fold_left (fun r' iv => set_nth (fst iv) (snd iv) r') a r.

Definition rowid_ok (cols : list column) (r : row) : bool :=
  match rowid_alias cols with
  | None => true
  | Some i => match cell r i with VInt _ => true | _ => false end
  end.

(** Whether a changed row shares a key with another row of the table. *)
Fixpoint update_clash (ks : list (list nat)) (before : list row)
  (rest : list (bool * row)) : bool :=
  match rest with
  | [] => false
  | (changed, r) :: rest' =>
      changed && (existsb (clashes_any ks r) before
                  || existsb (clashes_any ks r) (map snd rest'))
      || update_clash ks (r :: before) rest'
  end.

(** [UPDATE name SET c1 = ?, ..., cn = ? WHERE col = ?]; a failing
    statement changes nothing. *)
Definition update_where (s : store) (name : string) (sets : list (string * value))
  (col : string) (param : value) : sql_error + store :=
  match find_table s name with
  | None => inl (NoSuchTable name)
  | Some t =>
      match resolve_sets (tcols t) sets with
      | inl e => inl e
      | inr a =>
          match resolve (tcols t) col with
          | None => inl (NoSuchColumn col)
          | Some k =>
              let marked :=
                map (fun r =>
                       if where_eq (column_at (tcols t) k) (cell r k) param
                       then (true, assign a r) else (false, r)) (trows t) in
              if existsb (fun m => fst m && negb (rowid_ok (tcols t) (snd m))) marked
              then inl DatatypeMismatch
              else if existsb (fun m => fst m && negb (not_null_ok (tcols t) (snd m)))
                        marked
              then inl ConstraintFailed
              else if update_clash (keys (tcols t)) [] marked then inl ConstraintFailed
              else inr (set_table s name
                          (Table (tname t) (tcols t) (map snd marked)))
          end
      end
  end.

(** [DELETE FROM name WHERE col = ?] *)
Definition delete_where (s : store) (name col : string) (param : value)
  : sql_error + store :=
  match find_table s name with
  | None => inl (NoSuchTable name)
  | Some t =>
      match resolve (tcols t) col with
      | None => inl (NoSuchColumn col)
      | Some k =>
          inr (set_table s name
                 (Table (tname t) (tcols t)
                    (filter (fun r => negb (where_eq (column_at (tcols t) k)
                                              (cell r k) param)) (trows t))))
      end
  end.

End Statements.

(** The column CREATE TABLE ... AS SELECT makes of a source column: the
    name, a type name for the affinity, and no constraint. *)
Definition ctas_column (name : string) (c : column) : column :=
  Column name (ctas_type (affinity_of (ctype c))) false None 0 false.

(** [CREATE TABLE new AS SELECT names FROM src], for a select list of
    plain identifiers: each is looked up as a column of [src].  (A select
    item of another form, such as a literal, [*] or [x AS y], is an
    expression to the engine; see [identifier].) *)
Definition create_table_as (s : store) (new : string) (names : list string)
  (src : string) : sql_error + store :=
  match names with
  | [] => inl SyntaxError
  | _ =>
      match find_table s new with
      | Some _ => inl (TableExists new)
      | None =>
          match find_table s src with
          | None => inl (NoSuchTable src)
          | Some t =>
              match resolve_all (tcols t) names with
              | inl e => inl e
              | inr ix =>
                  let src_cols := map (column_at (tcols t)) ix in
                  let out := unique_names [] (map cname src_cols) in
                  inr (s ++ [Table new
                               (map (fun nc => ctas_column (fst nc) (snd nc))
                                    (combine out src_cols))
                               (map (project ix) (trows t))])%list
              end
          end
      end
  end.

(** [DROP TABLE name].  (The engine refuses to drop its own tables, such
    as [sqlite_sequence]; see [internal].) *)
Definition drop_table (s : store) (name : string) : sql_error + store :=
  match find_table s name with
  | None => inl (NoSuchTable name)
  | Some _ => inr (remove_table s name)
  end.

(** [ALTER TABLE old RENAME TO new] *)
Definition rename_table (s : store) (old new : string) : sql_error + store :=
  match find_table s old with
  | None => inl (NoSuchTable old)
  | Some t =>
      match find_table s new with
      | Some _ => inl (TableExists new)
      | None => inr (set_table s old (Table new (tcols t) (trows t)))
      end
  end.

(** [ALTER TABLE name ADD COLUMN col decl], for a plain identifier [col].
    (In any other text the engine takes the first word for the name and
    the rest for the type and the constraints; see [identifier].) *)
Definition add_column (s : store) (name col decl : string) : sql_error + store :=
  match find_table s name with
  | None => inl (NoSuchTable name)
  | Some t =>
      match resolve (tcols t) col with
      | Some _ => inl (DuplicateColumn col)
      | None =>
          inr (set_table s name
                 (Table (tname t)
                    (tcols t ++ [Column col decl false None 0 false])%list
                    (map (fun r => r ++ [VNull])%list (trows t))))
      end
  end.

(** [CREATE TABLE IF NOT EXISTS t] *)
Definition create_table_if_not_exists (s : store) (t : table) : store :=
  match find_table s (tname t) with
  | Some _ => s
  | None => (s ++ [t])%list
  end.

(** *** The reference engine

    Exact on NULL, integers and text where a text is either a plain decimal
    integer or not numeric at all; conversions between REAL and the other
    classes, and time-dependent defaults, are outside it. *)

Fixpoint all_digits (s : string) : bool :=
  match s with
  | EmptyString => true
  | String c s' => Py.is_digit c && all_digits s'
  end.

Definition int_literal (s : string) : option Z :=
  let d := match s with
           | String "-" d => d
           | String "+" d => d
           | d => d
           end in
  if Py.truthy d && all_digits d then Py.int s else None.

Definition sqlite_apply_affinity (a : affinity) (v : value) : value :=
  match a, v with
  | (AffInteger | AffNumeric), VText s =>
      match int_literal s with Some z => VInt z | None => VText s end
  | AffReal, VText s =>
      match int_literal s with Some z => VReal (Py.str z ++ ".0") | None => VText s end
  | AffReal, VInt z => VReal (Py.str z ++ ".0")
  | AffText, VInt z => VText (Py.str z)
  | AffText, VReal l => VText l
  | _, _ => v
  end.

Definition sqlite_value_eqb (a b : value) : bool :=
  match a, b with
  | VInt x, VInt y => Z.eqb x y
  | VText x, VText y => String.eqb x y
  | VReal x, VReal y => String.eqb x y
  | _, _ => false
  end.

Definition class_rank (v : value) : nat :=
  match v with
  | VNull => 0
  | VInt _ | VReal _ => 1
  | VText _ => 2
  end.

Definition sqlite_value_ltb (a b : value) : bool :=
  match a, b with
  | VInt x, VInt y => Z.ltb x y
  | VText x, VText y => String.ltb x y
  | _, _ => Nat.ltb (class_rank a) (class_rank b)
  end.

Definition sqlite_default_value (e : string) : value :=
  match int_literal e with
  | Some z => VInt z
  | None =>
      if String.eqb (Py.lower e) "true" then VInt 1
      else if String.eqb (Py.lower e) "false" then VInt 0
      else match e with
           | String "'" q =>
               VText (String.substring 0 (String.length q - 1) q)
           | _ => VNull
           end
  end.

#[export] Instance sqlite_engine : Engine := {
  apply_affinity := sqlite_apply_affinity;
  value_eqb := sqlite_value_eqb;
  value_ltb := sqlite_value_ltb;
  default_value := sqlite_default_value
}.

End Sqlite.

(** ** Python exceptions

    [SqliteError] stands for [sqlite3.Error] and its subclasses; the others
    are built-in exceptions, which no [except sqlite3.Error] clause
    catches. *)
Inductive exn : Type :=
| SqliteError (e : Sqlite.sql_error)
| ValueError
| TypeError
| AttributeError
| OverflowError
| EOFError.

(** A Python integer is bound as a 64-bit INTEGER; a larger one raises
    [OverflowError] when the statement is executed. *)
Definition bindable (v : Sqlite.value) : bool :=
  match v with
  | Sqlite.VInt z => (- 2 ^ 63 <=? z) && (z <? 2 ^ 63)
  | _ => true
  end.

(** ** backend/NextGenFItness.py *)

Module NextGenFItness.

Import Sqlite.

(** [werkzeug.security]: hashing draws a salt, checking is a function of
    the stored hash and the password. *)
Class Hasher : Type := {
  generate_password_hash : string -> string -> string;
  check_password_hash : string -> string -> bool
}.

(** [jsonify(body), status] *)
Record response : Type := Response {
  status : Z;
  body : list (string * string)
}.

(** The decoded JSON body of a signup request.  [data.get] gives [None]
    for a missing key; the password is a string and the role, when given,
    an integer, as the calls [generate_password_hash] and [int] need.  (A
    body of another shape makes one of the two calls convert or raise
    before any statement is run; such bodies are not modelled.) *)
Record signup_data : Type := SignupData {
  su_username : option string;
  su_email : option string;
  su_password : string;
  su_role : option Z
}.

Record login_data : Type := LoginData {
  li_username : option string;
  li_password : string
}.

(** A string or [None] as a statement parameter. *)
Definition param (x : option string) : value :=
  match x with
  | Some s => VText s
  | None => VNull
  end.

(** The table [init_db] creates. *)
Definition users_table : table :=
  Table "users"
    [ Column "ID" "INTEGER" false None 1 false;
      Column "username" "TEXT" false None 0 false;
      Column "email" "Text" false None 0 true;
      Column "password" "TEXT" false None 0 false;
      Column "role" "INTEGER" false None 0 false ]
    [].

(** The table the engine creates along with the first table that has an
    AUTOINCREMENT column, to record the largest row id given out.  (The
    row the engine writes there on an INSERT into such a table is left
    out.) *)
Definition sqlite_sequence : table :=
  Table "sqlite_sequence"
    [ Column "name" "" false None 0 false;
      Column "seq" "" false None 0 false ]
    [].

(** [init_db()]: CREATE TABLE IF NOT EXISTS users (... AUTOINCREMENT ...). *)
Definition init_db (s : store) : store :=
  match find_table s (tname users_table) with
  | Some _ => s
  | None => create_table_if_not_exists (s ++ [users_table])%list sqlite_sequence
  end.

(** Whether a REAL literal denotes zero: no non-zero digit before the
    exponent, and not a NaN or an infinity. *)
Fixpoint mantissa_zero (s : string) : bool :=
  match s with
  | EmptyString => true
  | String c s' =>
      if Ascii.eqb (Py.lower_ascii c) "e" then true
      else if Ascii.eqb (Py.lower_ascii c) "n" || Ascii.eqb (Py.lower_ascii c) "i"
      then false
      else if Py.is_digit c && negb (Ascii.eqb c "0") then false
      else mantissa_zero s'
  end.

(** Truth value of a fetched cell. *)
Definition truthy (v : value) : bool :=
  match v with
  | VNull => false
  | VInt z => negb (z =? 0)
  | VReal l => negb (mantissa_zero l)
  | VText s => Py.truthy s
  end.

Section Handlers.

Context {H : Hasher} {E : Engine}.

(** The number of the new identifier, from the row the ORDER BY query
    returned. *)
Definition new_num (rows : list row) : exn + Z :=
  match rows with
  | last :: _ =>
      if truthy (cell last 0) then
        match cell last 0 with
        | VText id =>
            match Py.int (Py.tail id) with
            | Some last_num => inr (last_num + 1)
            | None => inl ValueError
            end
        | _ => inl TypeError
        end
      else inr 1
  | [] => inr 1
  end.

(** [signup()].  [salt] is the salt the hashing draws.  The connection is
    opened for the request; a request that raises never commits. *)
Definition signup (salt : string) (data : signup_data) (s : store)
  : (exn + response) * store :=
  let username := su_username data in
  let email := su_email data in
  let password := generate_password_hash salt (su_password data) in
  let role := match su_role data with Some r => r | None => 1 end in
  match select_where s "User" "username" (param username) with
  | inl e => (inl (SqliteError e), s)
  | inr (_ :: _) => (inr (Response 409 [("error", "Username already exists")]), s)
  | inr [] =>
      match select_where s "User" "email" (param email) with
      | inl e => (inl (SqliteError e), s)
      | inr (_ :: _) => (inr (Response 409 [("error", "Email already registered")]), s)
      | inr [] =>
          match select_last s "User" "user_id" with
          | inl e => (inl (SqliteError e), s)
          | inr rows =>
              match new_num rows with
              | inl x => (inl x, s)
              | inr n =>
                  let new_user_id := "U" ++ Py.format_03d n in
                  if negb (bindable (VInt role)) then (inl OverflowError, s)
                  else
                    match insert_into s "User"
                            ["user_id"; "username"; "email"; "password"; "role"]
                            [VText new_user_id; param username; param email;
                             VText password; VInt role] with
                    | inl e => (inl (SqliteError e), s)
                    | inr s' =>
                        (inr (Response 201
                                [("message", "User registered successfully");
                                 ("user_id", new_user_id)]), s')
                    end
              end
          end
      end
  end.

(** [login()] *)
Definition login (data : login_data) (s : store) : exn + response :=
  let username := li_username data in
  let password := li_password data in
  match select_column_where s "User" "password" "username" (param username) with
  | inl e => inl (SqliteError e)
  | inr [] => inr (Response 401 [("error", "Invalid username or password")])
  | inr (row :: _) =>
      match cell row 0 with
      | VText pwhash =>
          if check_password_hash pwhash password
          then inr (Response 200 [("message", "Login successful")])
          else inr (Response 401 [("error", "Invalid username or password")])
      | _ => inl AttributeError
      end
  end.

(** The decoded JSON body of a reset request: [data.get] gives [None] for
    a missing key. *)
Record reset_data : Type := ResetData {
  rp_email : option string;
  rp_new_password : option string
}.

(** [not x] for a string or [None]. *)
Definition missing (x : option string) : bool :=
  match x with
  | Some s => negb (Py.truthy s)
  | None => true
  end.

Definition text_of (x : option string) : string :=
  match x with Some s => s | None => "" end.

(** [forgot_password()] *)
Definition forgot_password (email : option string) (s : store) : exn + response :=
  match select_where s "User" "email" (param email) with
  | inl e => inl (SqliteError e)
  | inr (_ :: _) => inr (Response 200 [("message", "Email found")])
  | inr [] => inr (Response 404 [("error", "Email not found")])
  end.

(** [reset_password()]: the statement updates the table [users]. *)
Definition reset_password (salt : string) (data : reset_data) (s : store)
  : (exn + response) * store :=
  let email := rp_email data in
  let new_password := rp_new_password data in
  if missing email || missing new_password then
    (inr (Response 400 [("error", "Email and new password are required")]), s)
  else
    let hashed_password := generate_password_hash salt (text_of new_password) in
    match update_where s "users" [("password", VText hashed_password)]
            "email" (param email) with
    | inl e => (inl (SqliteError e), s)
    | inr s' =>
        (inr (Response 200 [("message", "Password has been successfully updated")]),
         s')
    end.

End Handlers.

End NextGenFItness.

(** ** backend/db_manager.py *)

Module DbManager.

Import Sqlite.

(** The lines the tool prints to report a result.  Menus, banners, prompts
    and the listing of column names are not recorded. *)
Inductive output : Type :=
| Msg (line : string)
| Err (context : string) (e : sql_error)
| Grid (headers : list string) (rows : list row).

(** What a method of [NextGenFitnessDB] runs in once the connection is
    open (see [manager]): the connection's view of the database, the
    lines still to be read from standard input, what has been printed,
    and [fault]: when it is [Some n], the engine fails the statement
    after the next [n] with an I/O error.  [commit] is not a step of its
    own: the view is what every later statement sees. *)
Record world : Type := World {
  db : store;
  stdin : list string;
  fault : option nat;
  stdout : list output
}.

Definition M (A : Type) : Type := world -> (exn + A) * world.

Definition ret {A : Type} (a : A) : M A := fun w => (inr a, w).

Definition bind {A B : Type} (m : M A) (f : A -> M B) : M B :=
  fun w =>
    match m w with
    | (inr a, w') => f a w'
    | (inl x, w') => (inl x, w')
    end.

Definition raise {A : Type} (x : exn) : M A := fun w => (inl x, w).

Notation "x <- m ;; k" := (bind m (fun x => k))
  (at level 100, m at next level, right associativity).
Notation "m ;;; k" := (bind m (fun _ => k))
  (at level 100, right associativity).

(** [try: body except sqlite3.Error as e: handler(e)] *)
Definition try_sqlite (body : M unit) (handler : sql_error -> M unit) : M unit :=
  fun w =>
    match body w with
    | (inl (SqliteError e), w') => handler e w'
    | r => r
    end.

(** [input(prompt)] *)
Definition input : M string :=
  fun w =>
    match stdin w with
    | [] => (inl EOFError, w)
    | l :: rest => (inr l, World (db w) rest (fault w) (stdout w))
    end.

(** [print(line)] *)
Definition print (o : output) : M unit :=
  fun w => (inr tt, World (db w) (stdin w) (fault w) (stdout w ++ [o])%list).

(** One call of [cursor.execute]: the engine may fail it. *)
Definition step : M unit :=
  fun w =>
    match fault w with
    | None => (inr tt, w)
    | Some O => (inl (SqliteError IoError), World (db w) (stdin w) None (stdout w))
    | Some (S n) => (inr tt, World (db w) (stdin w) (Some n) (stdout w))
    end.

(** [cursor.execute] of a query. *)
Definition query {A : Type} (q : store -> sql_error + A) : M A :=
  step ;;;
  fun w =>
    match q (db w) with
    | inl e => (inl (SqliteError e), w)
    | inr a => (inr a, w)
    end.

(** Raises [OverflowError] for a parameter the binding cannot pass. *)
Definition bind_params (vals : list value) : M unit :=
  if forallb bindable vals then ret tt else raise OverflowError.

(** [cursor.execute(stmt, vals)] of a statement that changes the database. *)
Definition execute_with (vals : list value) (stmt : store -> sql_error + store)
  : M unit :=
  step ;;;
  bind_params vals ;;;
  fun w =>
    match stmt (db w) with
    | inl e => (inl (SqliteError e), w)
    | inr s' => (inr tt, World s' (stdin w) (fault w) (stdout w))
    end.

(** [cursor.execute(stmt)] *)
Definition execute (stmt : store -> sql_error + store) : M unit :=
  execute_with [] stmt.

Fixpoint for_each {A B : Type} (f : A -> M B) (l : list A) : M (list B) :=
  match l with
  | [] => ret []
  | a :: l' => b <- f a ;; bs <- for_each f l' ;; ret (b :: bs)
  end.

(** [cursor.execute] of the pragma that has [table_name] pasted into its
    text. *)
Definition pragma_table_info (table_name : string) : M (list info) :=
  query (fun s => inr (table_info s table_name)).

(** The object [NextGenFitnessDB] after [__init__]: [connect()] catches
    the error of a database that cannot be opened, prints it and leaves
    [self.cursor] at [None]; the menus go on either way. *)
Inductive manager : Type :=
| Connected (w : world)
| NoCursor (lines : list string) (printed : list output).

(** [connect()]: [opened] is the database the engine opens at [db_path],
    or the error it raises. *)
Definition connect (db_path : string) (opened : sql_error + store)
  (lines : list string) (fault : option nat) : manager :=
  match opened with
  | inr s =>
      Connected (World s lines fault
                   [Msg ("Successfully connected to database at: " ++ db_path)])
  | inl e => NoCursor lines [Err "Error connecting to database" e]
  end.

(** The call of a method whose first step is [self.cursor.execute]:
    without a cursor that step raises [AttributeError], which the
    [except sqlite3.Error] of the method does not catch. *)
Definition call {A : Type} (method : M A) (g : manager) : (exn + A) * manager :=
  match g with
  | Connected w => let (r, w') := method w in (r, Connected w')
  | NoCursor _ _ => (inl AttributeError, g)
  end.

Section Methods.

Context {E : Engine}.

(** [view_table_data] *)
Definition view_table_data (table_name : string) : M unit :=
  try_sqlite
    (rows <- query (fun s => select_all s table_name) ;;
     infos <- pragma_table_info table_name ;;
     let columns := map i_name infos in
     match rows with
     | _ :: _ => print (Grid columns rows)
     | [] => print (Msg ("No data found in " ++ table_name ++ " table"))
     end)
    (fun e => print (Err "Error viewing table data" e)).

(** The conversion of one typed-in value by the column's declared type. *)
Definition coerce (col_type value : string) : exn + Sqlite.value :=
  if String.eqb col_type "INTEGER" then
    if Py.truthy value then
      match Py.int value with
      | Some z => inr (VInt z)
      | None => inl ValueError
      end
    else inr VNull
  else if String.eqb col_type "REAL" then
    if Py.truthy value then
      match Py.float value with
      | Some l => inr (VReal l)
      | None => inl ValueError
      end
    else inr VNull
  else inr (VText value).

(** [insert_record] *)
Definition insert_record (table_name : string) : M unit :=
  try_sqlite
    (columns <- pragma_table_info table_name ;;
     values <- for_each
       (fun column =>
          value <- input ;;
          match coerce (i_type column) value with
          | inl x => raise x
          | inr v => ret v
          end) columns ;;
     execute_with values
       (fun s => insert_into s table_name (map i_name columns) values) ;;;
     print (Msg "Record inserted successfully"))
    (fun e => print (Err "Error inserting record" e)).

(** The name of the first column whose pk flag is set. *)
Fixpoint primary_key_of (columns : list info) : option string :=
  match columns with
  | [] => None
  | col :: columns' =>
      if negb (Nat.eqb (i_pk col) 0) then Some (i_name col)
      else primary_key_of columns'
  end.

(** [not primary_key] *)
Definition no_primary_key (primary_key : option string) : bool :=
  match primary_key with
  | None => true
  | Some n => negb (Py.truthy n)
  end.

Definition pk_name (primary_key : option string) : string :=
  match primary_key with Some n => n | None => "" end.

(** The loop of [update_record] that asks for the new values: an empty
    answer keeps the current value. *)
Fixpoint ask_updates (primary_key : string) (columns : list info)
  : M (list (string * value)) :=
  match columns with
  | [] => ret []
  | column :: columns' =>
      let col_name := i_name column in
      if negb (String.eqb col_name primary_key) then
        new_value <- input ;;
        rest <- ask_updates primary_key columns' ;;
        if Py.truthy new_value then ret ((col_name, VText new_value) :: rest)
        else ret rest
      else ask_updates primary_key columns'
  end.

(** [update_record] *)
Definition update_record (table_name : string) : M unit :=
  try_sqlite
    (columns <- pragma_table_info table_name ;;
     let primary_key := primary_key_of columns in
     if no_primary_key primary_key then
       print (Msg ("Error: No primary key found in table " ++ table_name))
     else
       view_table_data table_name ;;;
       primary_key_value <- input ;;
       updates <- ask_updates (pk_name primary_key) columns ;;
       match updates with
       | _ :: _ =>
           execute_with (map snd updates ++ [VText primary_key_value])%list
             (fun s => update_where s table_name updates
                         (pk_name primary_key) (VText primary_key_value)) ;;;
           print (Msg "Record updated successfully")
       | [] => print (Msg "No changes made")
       end)
    (fun e => print (Err "Error updating record" e)).

(** [delete_record] *)
Definition delete_record (table_name : string) : M unit :=
  try_sqlite
    (view_table_data table_name ;;;
     columns <- pragma_table_info table_name ;;
     let primary_key := primary_key_of columns in
     if no_primary_key primary_key then
       print (Msg ("Error: No primary key found in table " ++ table_name))
     else
       record_id <- input ;;
       confirm <- input ;;
       if String.eqb (Py.lower confirm) "y" then
         execute_with [VText record_id]
           (fun s => delete_where s table_name (pk_name primary_key)
                       (VText record_id)) ;;;
         print (Msg "Record deleted successfully")
       else print (Msg "Deletion cancelled"))
    (fun e => print (Err "Error deleting record" e)).

(** The [data_types] dictionary of the add-column branch. *)
Definition data_types (type_choice : string) : option string :=
  if String.eqb type_choice "1" then Some "TEXT"
  else if String.eqb type_choice "2" then Some "INTEGER"
  else if String.eqb type_choice "3" then Some "REAL"
  else if String.eqb type_choice "4" then Some "BOOLEAN"
  else if String.eqb type_choice "5" then Some "TIMESTAMP"
  else None.

(** The three statements of a rebuild: copy the projection into
    [<table>_new], drop the table, give the copy its name. *)
Definition rebuild (table_name : string) (columns : list string) : M unit :=
  execute (fun s => create_table_as s (table_name ++ "_new") columns table_name) ;;;
  execute (fun s => drop_table s table_name) ;;;
  execute (fun s => rename_table s (table_name ++ "_new") table_name).

(** The branch of [modify_table] that adds a column. *)
Definition add_column_choice (table_name : string) : M unit :=
  col_name <- input ;;
  let col_name := Py.strip col_name in
  type_choice <- input ;;
  let type_choice := Py.strip type_choice in
  match data_types type_choice with
  | Some data_type =>
      execute (fun s => add_column s table_name col_name data_type) ;;;
      print (Msg ("Column '" ++ col_name ++ "' added successfully"))
  | None => print (Msg "Invalid data type choice")
  end.

(** The branch that renames a column: the copy selects the column list
    with [new_name] in the place of [old_name]. *)
Definition rename_column_choice (table_name : string) : M unit :=
  _ <- pragma_table_info table_name ;;
  old_name <- input ;;
  let old_name := Py.strip old_name in
  new_name <- input ;;
  let new_name := Py.strip new_name in
  infos <- pragma_table_info table_name ;;
  let columns := map i_name infos in
  let new_columns :=
    map (fun col => if String.eqb col old_name then new_name else col) columns in
  rebuild table_name new_columns ;;;
  print (Msg ("Column '" ++ old_name ++ "' renamed to '" ++ new_name
              ++ "' successfully")).

(** The branch that drops a column: the copy selects the columns whose
    name is not [col_name]. *)
Definition drop_column_choice (table_name : string) : M unit :=
  _ <- pragma_table_info table_name ;;
  col_name <- input ;;
  let col_name := Py.strip col_name in
  infos <- pragma_table_info table_name ;;
  let columns :=
    filter (fun col => negb (String.eqb col col_name)) (map i_name infos) in
  rebuild table_name columns ;;;
  print (Msg ("Column '" ++ col_name ++ "' dropped successfully")).

(** [modify_table] *)
Definition modify_table (table_name : string) : M unit :=
  try_sqlite
    (choice <- input ;;
     let choice := Py.strip choice in
     if String.eqb choice "1" then add_column_choice table_name
     else if String.eqb choice "2" then rename_column_choice table_name
     else if String.eqb choice "3" then drop_column_choice table_name
     else if String.eqb choice "4" then ret tt
     else print (Msg "Invalid choice"))
    (fun e => print (Err "Error modifying table" e)).

(** The test [create_new_table] puts the name of the table and of every
    attribute to: it goes on when
    [not name or not name.replace('_', '').isalnum()] is false. *)
Definition valid_name (name : string) : bool :=
  negb (negb (Py.truthy name) || negb (Py.isalnum (Py.drop_underscores name))).

(** [SELECT name FROM sqlite_master WHERE type='table'] *)
Definition table_names (s : store) : sql_error + list string := inr (map tname s).

(** [SELECT COUNT( * ) FROM name] *)
Definition count_rows (s : store) (name : string) : sql_error + Z :=
  match select_all s name with
  | inl e => inl e
  | inr rows => inr (Z.of_nat (List.length rows))
  end.

Inductive selection : Type :=
| Cancelled
| Selected (table_name : string)
| EndOfInput.

(** The loop of [delete_table] that reads the number of a table: it ends
    at the word cancel or at a number of the list; an answer [int] rejects
    and a number outside the list are reported and the loop goes on.  The
    result carries the lines left to read and the lines printed. *)
Fixpoint select_table (tables : list string) (lines : list string)
  : selection * list string * list output :=
  match lines with
  | [] => (EndOfInput, [], [])
  | line :: lines' =>
      let choice := Py.strip line in
      if String.eqb (Py.lower choice) "cancel" then
        (Cancelled, lines', [Msg "Table deletion cancelled."])
      else
        match Py.int choice with
        | Some n =>
            if (1 <=? n) && (n <=? Z.of_nat (List.length tables)) then
              (Selected (nth (Z.to_nat (n - 1)) tables ""), lines', [])
            else
              let '(sel, rest, printed) := select_table tables lines' in
              (sel, rest, Msg "Invalid selection. Please try again." :: printed)
        | None =>
            let '(sel, rest, printed) := select_table tables lines' in
            (sel, rest, Msg "Please enter a valid number." :: printed)
        end
  end.

Definition ask_table (tables : list string) : M (option string) :=
  fun w =>
    let '(sel, rest, printed) := select_table tables (stdin w) in
    let w' := World (db w) rest (fault w) (stdout w ++ printed)%list in
    match sel with
    | Cancelled => (inr None, w')
    | Selected table_name => (inr (Some table_name), w')
    | EndOfInput => (inl EOFError, w')
    end.

(** The part of [delete_table] that follows the selection: the structure
    and the number of rows are shown, and the table is dropped when the
    answer is yes.  The grid of the structure is not recorded. *)
Definition confirm_delete (table_name : string) : M unit :=
  _ <- pragma_table_info table_name ;;
  row_count <- query (fun s => count_rows s table_name) ;;
  print (Msg ("This table contains " ++ Py.str row_count ++ " rows.")) ;;;
  confirm <- input ;;
  let confirm := Py.lower (Py.strip confirm) in
  if String.eqb confirm "yes" then
    execute (fun s => drop_table s table_name) ;;;
    print (Msg ("Table '" ++ table_name ++ "' has been successfully deleted."))
  else print (Msg "Table deletion cancelled.").

(** [delete_table].  The numbered list of tables is not recorded. *)
Definition delete_table : M unit :=
  try_sqlite
    (tables <- query table_names ;;
     match tables with
     | [] => print (Msg "No tables found in the database")
     | _ :: _ =>
         selected <- ask_table tables ;;
         match selected with
         | None => ret tt
         | Some table_name => confirm_delete table_name
         end
     end)
    (fun e => print (Err "Error deleting table" e)).

End Methods.

End DbManager.

(** ** Stores and requests the programs are run on *)

Module Fixtures.

Import Sqlite NextGenFItness DbManager.

(** A table as the tool's own create-table dialogue makes it: an INTEGER
    primary key and text columns. *)
Definition routines : table :=
  Table "routines"
    [ Column "id" "INTEGER" false None 1 false;
      Column "title" "TEXT" false None 0 false;
      Column "notes" "TEXT" false None 0 false ]
    [ [VInt 1; VText "Leg Day"; VText "squats"];
      [VInt 2; VText "Arm Day"; VText "curls"] ].

(** A table with a single column besides its primary key. *)
Definition plans : table :=
  Table "plans"
    [ Column "id" "INTEGER" false None 1 false;
      Column "title" "TEXT" false None 0 false ]
    [ [VInt 1; VText "Bulk"] ].

(** The world of a method call: the store, what is typed, and the
    statement the engine fails, if any. *)
Definition typing (s : store) (lines : list string) (fault : option nat) : world :=
  World s lines fault [].

(** Modelled from the spec: the declaration of the table [User] that
    [signup] and [login] read and write is not part of the sources.  Its
    columns follow the data model: identifier, username (unique, non-null),
    email (unique), password hash, role (integer, default 1).  [key] says
    whether the identifier is the primary key. *)
Definition User_table (key : bool) (rows : list row) : table :=
  Table "User"
    [ Column "user_id" "TEXT" false None (if key then 1 else 0) false;
      Column "username" "TEXT" true None 0 true;
      Column "email" "TEXT" false None 0 true;
      Column "password" "TEXT" false None 0 false;
      Column "role" "INTEGER" false (Some "1") 0 false ]
    rows.

(** A stand-in for the hashing library, to run the handlers on concrete
    requests. *)
Definition tagged_hasher : Hasher := {|
  generate_password_hash := fun salt password => salt ++ "$" ++ password;
  check_password_hash := fun pwhash password =>
    match String.index 0 "$" pwhash with
    | Some i =>
        String.eqb
          (String.substring (S i) (String.length pwhash - S i) pwhash) password
    | None => false
    end
|}.

Definition request (username email : string) : signup_data :=
  SignupData (Some username) (Some email) "secret" None.

(** The identifier a response carries. *)
Definition issued (r : exn + response) : exn + option string :=
  match r with
  | inl x => inl x
  | inr r' =>
      inr (match body r' with
           | [_; (_, id)] => Some id
           | _ => None
           end)
  end.

Section Runs.

Context {H : Hasher} {E : Engine}.

(** The requests of a list, served one after the other. *)
Fixpoint signup_all (reqs : list signup_data) (s : store)
  : list (exn + response) * store :=
  match reqs with
  | [] => ([], s)
  | data :: reqs' =>
      let (r, s') := signup "salt" data s in
      let (rs, s'') := signup_all reqs' s' in
      (r :: rs, s'')
  end.

End Runs.

(** The row of the user who holds the identifier U999. *)
Definition user_999 : row :=
  [VText "U999"; VText "zoe"; VText "zoe@example.com"; VText "salt$pw"; VInt 1].

(** The row of the user who holds the identifier U007. *)
Definition user_007 : row :=
  [VText "U007"; VText "zoe"; VText "zoe@example.com"; VText "salt$pw"; VInt 1].

(** A store whose latest user is U007, and the store after the signup of
    a new user. *)
Definition seven_users : store := [User_table false [user_007]].

Definition eight_users : store :=
  snd (signup (H := tagged_hasher) (E := sqlite_engine) "salt"
         (request "amy" "amy@example.com") seven_users).

Definition registered (id : string) : response :=
  Response 201 [("message", "User registered successfully"); ("user_id", id)].

End Fixtures.

(** ** Vocabulary of the properties *)

Module Vocabulary.

Import Sqlite DbManager.

(** No two names of the list are the same up to case. *)
Fixpoint distinct (names : list string) : bool :=
  match names with
  | [] => true
  | n :: names' => negb (existsb (name_eqb n) names') && distinct names'
  end.

(** The three statements of a rebuild all went through, taking the
    store [s] to [s']. *)
Definition rebuilt (s : store) (table_name : string) (columns : list string)
  (s' : store) : Prop :=
  exists s1 s2,
    create_table_as s (table_name ++ "_new") columns table_name = inr s1
    /\ drop_table s1 table_name = inr s2
    /\ rename_table s2 (table_name ++ "_new") table_name = inr s'.

(** [modify_table], asked to drop [col_name], printed its success line. *)
Definition dropped (table_name col_name : string) (w w' : world) : Prop :=
  exists rest,
    stdin w = "3" :: col_name :: rest
    /\ modify_table table_name w = (inr tt, w')
    /\ stdout w' =
       (stdout w ++ [Msg ("Column '" ++ Py.strip col_name
                          ++ "' dropped successfully")])%list.

(** [modify_table], asked to rename [old_name] to [new_name], printed its
    success line. *)
Definition renamed (table_name old_name new_name : string) (w w' : world) : Prop :=
  exists rest,
    stdin w = "2" :: old_name :: new_name :: rest
    /\ modify_table table_name w = (inr tt, w')
    /\ stdout w' =
       (stdout w ++ [Msg ("Column '" ++ Py.strip old_name ++ "' renamed to '"
                          ++ Py.strip new_name ++ "' successfully")])%list.

(** The answers [update_record] reads, lined up with the columns: the
    primary key is not asked for. *)
Fixpoint plan (primary_key : string) (columns : list info) (answers : list string)
  : list (info * option string) :=
  match columns with
  | [] => []
  | column :: columns' =>
      if negb (String.eqb (i_name column) primary_key) then
        match answers with
        | a :: answers' => (column, Some a) :: plan primary_key columns' answers'
        | [] => (column, None) :: plan primary_key columns' []
        end
      else (column, None) :: plan primary_key columns' answers
  end.

(** The change set of an update: the columns with a non-empty answer. *)
Fixpoint changes (p : list (info * option string)) : list (string * value) :=
  match p with
  | [] => []
  | (column, Some a) :: p' =>
      if Py.truthy a then (i_name column, VText a) :: changes p' else changes p'
  | (_, None) :: p' => changes p'
  end.

(** The number of answers [update_record] asks for. *)
Definition asked (primary_key : string) (columns : list info) : nat :=
  List.length (filter (fun c => negb (String.eqb (i_name c) primary_key)) columns).

(** What [view_table_data] prints for a table. *)
Definition shown (table_name : string) (t : table) : output :=
  match trows t with
  | _ :: _ => Grid (map cname (tcols t)) (trows t)
  | [] => Msg ("No data found in " ++ table_name ++ " table")
  end.

(** An answer the selection loop of [delete_table] turns down: not the
    word cancel, and not a number of the list. *)
Definition rejected (tables : list string) (line : string) : bool :=
  negb (Py.lower (Py.strip line) =? "cancel")%string
  && match Py.int (Py.strip line) with
     | Some n => negb ((1 <=? n) && (n <=? Z.of_nat (List.length tables)))
     | None => true
     end.


(** Text of ASCII characters only, the text the string functions of
    [Module Py] are given their meaning for. *)
Definition ascii_text (s : string) : bool :=
  forallb (fun c => (Py.code c <? 128)%nat) (list_ascii_of_string s).
End Vocabulary.

(** * Properties *)

Import Sqlite NextGenFItness DbManager Fixtures Vocabulary.
Local Open Scope list_scope.

Example int_001 : Py.int "001" = Some 1. Proof. reflexivity. Qed.
Example int_abc : Py.int "abc" = None. Proof. reflexivity. Qed.
Example int_ws : Py.int " -1_0 " = Some (-10). Proof. reflexivity. Qed.
Example int_us : Py.int "1__0" = None. Proof. reflexivity. Qed.
Example float_ok : Py.float "1_0.5e-3" = Some "1_0.5e-3". Proof. reflexivity. Qed.
Example float_dot : Py.float "." = None. Proof. reflexivity. Qed.
Example float_1dot : Py.float "1." = Some "1.". Proof. reflexivity. Qed.
Example fmt_7 : Py.format_03d 7 = "007". Proof. reflexivity. Qed.
Example fmt_1000 : Py.format_03d 1000 = "1000". Proof. reflexivity. Qed.
Example fmt_neg : Py.format_03d (-4) = "-04". Proof. reflexivity. Qed.
Example strip_ex : Py.strip "  a b  " = "a b". Proof. reflexivity. Qed.

(** ** Names and the catalog *)

Lemma name_eqb_refl (a : string) : name_eqb a a = true.
Proof. apply String.eqb_refl. Qed.

Lemma find_table_app (s : store) (t : table) (n : string) :
  find_table (s ++ [t]) n =
  match find_table s n with
  | Some t' => Some t'
  | None => if name_eqb (tname t) n then Some t else None
  end.
Proof.
  induction s as [|x s IH]; simpl.
  - reflexivity.
  - destruct (name_eqb (tname x) n); [reflexivity | exact IH].
Qed.

(** ** The signup and login handlers *)

Section HandlerFacts.

Context {H : Hasher} {E : Engine}.

Lemma init_db_no_User (s0 : store) :
  find_table s0 "User" = None -> find_table (init_db s0) "User" = None.
Proof.
  intros H0. unfold init_db, create_table_if_not_exists.
  destruct (find_table s0 (tname users_table)); [exact H0|].
  assert (H1 : find_table (s0 ++ [users_table]) "User" = None)
    by (rewrite find_table_app, H0; reflexivity).
  destruct (find_table (s0 ++ [users_table]) (tname sqlite_sequence));
    [exact H1|].
  rewrite find_table_app, H1. reflexivity.
Qed.

(** Had the table of [init_db] been created under the name the handlers
    use, a signup would still stop at the first statement that names
    [user_id]. *)
Lemma signup_on_init_db_columns (salt : string) (data : signup_data) :
  let s := [Table "User" (tcols users_table) []] in
  signup salt data s = (inl (SqliteError (NoSuchColumn "user_id")), s).
Proof. reflexivity. Qed.

(** C3: on a store that [init_db] has set up (it creates the table [users],
    with no column [user_id], and the store holds no table [User]), every
    signup request ends in a store error, never in a 201 response, and
    adds nothing to the store. *)
Theorem signup_after_init_db_store_error (salt : string) (data : signup_data)
  (s0 : store) :
  find_table s0 "User" = None ->
  signup salt data (init_db s0)
  = (inl (SqliteError (NoSuchTable "User")), init_db s0).
Proof.
  intros H0. apply init_db_no_User in H0.
  unfold signup, select_where. rewrite H0. reflexivity.
Qed.

Lemma filter_hd_find {A : Type} (f : A -> bool) (l : list A) :
  filter f l = match find f l with
               | Some a => a :: List.tl (filter f l)
               | None => []
               end.
Proof.
  induction l as [|a l IH]; simpl; [reflexivity|].
  destruct (f a); [reflexivity | exact IH].
Qed.

(** What [login] does, by the first row the username selects. *)
Lemma login_by_first_row (data : login_data) (s : store) (t : table) (o k : nat) :
  find_table s "User" = Some t ->
  resolve (tcols t) "password" = Some o ->
  resolve (tcols t) "username" = Some k ->
  login data s =
  match find (fun r => where_eq (column_at (tcols t) k) (cell r k)
                         (param (li_username data))) (trows t) with
  | None => inr (Response 401 [("error", "Invalid username or password")])
  | Some r =>
      match cell r o with
      | VText pwhash =>
          if check_password_hash pwhash (li_password data)
          then inr (Response 200 [("message", "Login successful")])
          else inr (Response 401 [("error", "Invalid username or password")])
      | _ => inl AttributeError
      end
  end.
Proof.
  intros Ht Ho Hk. unfold login, select_column_where, select_where.
  rewrite Ht, Ho, Hk. rewrite filter_hd_find.
  destruct (find _ (trows t)); reflexivity.
Qed.


End HandlerFacts.

Lemma signup_after_init_db_store_error_witness :
  find_table [] "User" = None
  /\ signup (H := tagged_hasher) (E := sqlite_engine) "salt"
       (request "ann" "ann@example.com") (init_db [])
     = (inl (SqliteError (NoSuchTable "User")), init_db []).
Proof.
  split; [reflexivity|].
  apply (signup_after_init_db_store_error (H := tagged_hasher) (E := sqlite_engine)).
  reflexivity.
Defined.




(** ** The catalog *)





Lemma find_table_name (s : store) (n : string) (t : table) :
  find_table s n = Some t -> name_eqb (tname t) n = true.
Proof.
  induction s as [|x s IH]; simpl; [discriminate|].
  destruct (name_eqb (tname x) n) eqn:Hx; [|exact IH].
  intros Heq. injection Heq as <-. exact Hx.
Qed.

Lemma find_table_remove_none (s : store) (n m : string) :
  find_table s m = None -> find_table (remove_table s n) m = None.
Proof.
  induction s as [|x s IH]; simpl; [reflexivity|].
  destruct (name_eqb (tname x) m) eqn:Hm; [discriminate|]. intros Hs.
  destruct (name_eqb (tname x) n); [exact Hs|].
  simpl. rewrite Hm. exact (IH Hs).
Qed.

Lemma remove_table_app (s l : store) (n : string) (t : table) :
  find_table s n = Some t -> remove_table (s ++ l) n = remove_table s n ++ l.
Proof.
  induction s as [|x s IH]; simpl; [discriminate|].
  destruct (name_eqb (tname x) n); [reflexivity|].
  intros Hs. rewrite (IH Hs). reflexivity.
Qed.

Lemma set_table_app_last (s : store) (x t' : table) (m : string) :
  find_table s m = None -> name_eqb (tname x) m = true ->
  set_table (s ++ [x]) m t' = s ++ [t'].
Proof.
  intros Hs Hx. induction s as [|y s IH]; simpl in *.
  - rewrite Hx. reflexivity.
  - destruct (name_eqb (tname y) m); [discriminate|].
    rewrite (IH Hs). reflexivity.
Qed.

Lemma set_table_same (s : store) (n : string) (t : table) :
  find_table s n = Some t -> set_table s n t = s.
Proof.
  induction s as [|x s IH]; simpl; [reflexivity|].
  destruct (name_eqb (tname x) n).
  - intros Heq. injection Heq as <-. reflexivity.
  - intros Hs. rewrite (IH Hs). reflexivity.
Qed.

Lemma find_set_table (s : store) (n : string) (t t' : table) :
  find_table s n = Some t -> name_eqb (tname t') n = true ->
  find_table (set_table s n t') n = Some t'.
Proof.
  intros Hs Ht'. induction s as [|x s IH]; simpl in *; [discriminate|].
  destruct (name_eqb (tname x) n) eqn:Hx; simpl.
  - rewrite Ht'. reflexivity.
  - rewrite Hx. exact (IH Hs).
Qed.

(** ** The rebuild *)

(** The table a rebuild puts in place of [t]. *)
Lemma ctas_columns_no_key (names : list string) (cols : list column) :
  Forall (fun c => cpk c = O)
    (map (fun nc => ctas_column (fst nc) (snd nc)) (combine names cols)).
Proof.
  revert cols. induction names as [|n names IH]; intros [|c cols]; simpl;
    constructor; [reflexivity | apply IH].
Qed.

(** A rebuild that went through has put, at the end of the catalog, a
    copy of the table that carries no constraint. *)
Lemma rebuilt_shape (s s' : store) (name : string) (columns : list string) :
  rebuilt s name columns s' ->
  exists t ix,
    find_table s name = Some t
    /\ resolve_all (tcols t) columns = inr ix
    /\ find_table (remove_table s name) name = None
    /\ s' = remove_table s name ++
            [Table name
               (map (fun nc => ctas_column (fst nc) (snd nc))
                  (combine
                     (unique_names [] (map cname (map (column_at (tcols t)) ix)))
                     (map (column_at (tcols t)) ix)))
               (map (project ix) (trows t))].
Proof.
  intros (s1 & s2 & Hc & Hd & Hr).
  unfold create_table_as in Hc.
  destruct columns as [|c0 columns]; [discriminate|].
  destruct (find_table s (name ++ "_new")%string) eqn:Hnew; [discriminate|].
  destruct (find_table s name) as [t|] eqn:Ht; [|discriminate].
  destruct (resolve_all (tcols t) (c0 :: columns)) as [e|ix] eqn:Hix; [discriminate|].
  injection Hc as <-.
  unfold drop_table in Hd. rewrite find_table_app, Ht in Hd.
  injection Hd as <-. rewrite (remove_table_app _ _ _ _ Ht) in Hr.
  unfold rename_table in Hr.
  pose proof (find_table_remove_none s name _ Hnew) as Hnew'.
  rewrite find_table_app, Hnew' in Hr. cbn [tname] in Hr.
  rewrite name_eqb_refl in Hr.
  destruct (find_table (remove_table s name ++ _) name) eqn:Hold; [discriminate|].
  injection Hr as <-.
  rewrite find_table_app in Hold.
  destruct (find_table (remove_table s name) name) eqn:Hold'; [discriminate|].
  exists t, ix. repeat split; try assumption.
  apply set_table_app_last; [assumption | apply name_eqb_refl].
Qed.

Lemma primary_key_of_none (i : nat) (cols : list column) :
  Forall (fun c => cpk c = O) cols -> primary_key_of (infos i cols) = None.
Proof.
  intros Hall. revert i. induction Hall as [|c cols Hc _ IH]; intros i; simpl.
  - reflexivity.
  - rewrite Hc. simpl. apply IH.
Qed.

Lemma rebuilt_no_primary_key (s s' : store) (name : string) (columns : list string) :
  rebuilt s name columns s' ->
  exists t', find_table s' name = Some t'
             /\ Forall (fun c => cpk c = O) (tcols t')
             /\ primary_key_of (table_info s' name) = None.
Proof.
  intros Hr. destruct (rebuilt_shape _ _ _ _ Hr) as (t & ix & _ & _ & Hold & ->).
  eexists. unfold table_info. rewrite find_table_app, Hold. cbn [tname].
  rewrite name_eqb_refl. split; [reflexivity|]. cbn [tcols].
  split; [|apply primary_key_of_none]; apply ctas_columns_no_key.
Qed.

(** ** Running the methods *)

Lemma bind_inv {A B : Type} (m : M A) (f : A -> M B) (w w' : world) (r : exn + B) :
  bind m f w = (r, w') ->
  (exists a w1, m w = (inr a, w1) /\ f a w1 = (r, w'))
  \/ (exists x, m w = (inl x, w') /\ r = inl x).
Proof.
  unfold bind. destruct (m w) as [[x|a] w1]; intros Heq.
  - right. exists x. injection Heq as <- <-. split; reflexivity.
  - left. exists a, w1. split; [reflexivity | exact Heq].
Qed.

Lemma step_inv (w w' : world) (r : exn + unit) :
  step w = (r, w') ->
  db w' = db w /\ stdin w' = stdin w /\ stdout w' = stdout w
  /\ (r = inr tt \/ exists e, r = inl (SqliteError e)).
Proof.
  unfold step. destruct (fault w) as [[|n]|]; intros Heq;
    injection Heq as <- <-; simpl; repeat split; eauto.
Qed.

Lemma execute_inv (stmt : store -> sql_error + store) (w w' : world)
  (r : exn + unit) :
  execute stmt w = (r, w') ->
  stdin w' = stdin w /\ stdout w' = stdout w
  /\ ((r = inr tt /\ stmt (db w) = inr (db w')) \/ exists e, r = inl (SqliteError e)).
Proof.
  unfold execute, execute_with. intros Heq.
  apply bind_inv in Heq as [(a & w1 & Hs & Heq)|(x & Hs & ->)];
    apply step_inv in Hs as (Hdb & Hin & Hout & Hr).
  - unfold bind, bind_params in Heq. simpl in Heq. unfold ret in Heq.
    destruct (stmt (db w1)) as [e|s'] eqn:Hstmt; injection Heq as <- <-; simpl.
    + repeat split; eauto.
    + rewrite Hdb in Hstmt. repeat split; eauto.
  - destruct Hr as [Hr|Hr]; [discriminate|]. repeat split; eauto.
Qed.

Lemma pragma_inv (name : string) (w w' : world) (r : exn + list info) :
  pragma_table_info name w = (r, w') ->
  db w' = db w /\ stdin w' = stdin w /\ stdout w' = stdout w
  /\ (r = inr (table_info (db w) name) \/ exists e, r = inl (SqliteError e)).
Proof.
  unfold pragma_table_info, query. intros Heq.
  apply bind_inv in Heq as [(a & w1 & Hs & Heq)|(x & Hs & ->)];
    apply step_inv in Hs as (Hdb & Hin & Hout & Hr).
  - injection Heq as <- <-. rewrite Hdb. repeat split; eauto.
  - destruct Hr as [Hr|(e & Hr)]; [discriminate|]. injection Hr as ->.
    repeat split; eauto.
Qed.

Lemma input_inv (w w' : world) (r : exn + string) :
  input w = (r, w') ->
  db w' = db w /\ stdout w' = stdout w
  /\ ((exists l, r = inr l /\ stdin w = l :: stdin w') \/ r = inl EOFError).
Proof.
  unfold input. destruct (stdin w) as [|l rest] eqn:Hin; intros Heq;
    injection Heq as <- <-; simpl; repeat split; eauto.
Qed.

Lemma rebuild_inv (name : string) (columns : list string) (w w' : world)
  (r : exn + unit) :
  rebuild name columns w = (r, w') ->
  stdin w' = stdin w /\ stdout w' = stdout w
  /\ ((r = inr tt /\ rebuilt (db w) name columns (db w'))
      \/ exists e, r = inl (SqliteError e)).
Proof.
  unfold rebuild. intros Heq.
  apply bind_inv in Heq as [(a & w1 & H1 & Heq)|(x & H1 & ->)];
    apply execute_inv in H1 as (Hin1 & Hout1 & H1);
    [|destruct H1 as [[H1 _]|H1]; [discriminate | repeat split; eauto]].
  destruct H1 as [[_ H1]|(e & H1)]; [|discriminate].
  apply bind_inv in Heq as [(b & w2 & H2 & Heq)|(x & H2 & ->)];
    apply execute_inv in H2 as (Hin2 & Hout2 & H2);
    [|destruct H2 as [[H2 _]|H2]; [discriminate | repeat split; eauto; congruence]].
  destruct H2 as [[_ H2]|(e & H2)]; [|discriminate].
  apply execute_inv in Heq as (Hin3 & Hout3 & H3).
  repeat split; try congruence.
  destruct H3 as [[-> H3]|H3]; [left | right; exact H3].
  split; [reflexivity|]. exists (db w1), (db w2). auto.
Qed.

(** A failing branch of [modify_table] adds an error line, so a run that
    ends with the success line has gone through its rebuild. *)
Lemma print_run (o : output) (w : world) :
  print o w = (inr tt, World (db w) (stdin w) (fault w) (stdout w ++ [o])).
Proof. reflexivity. Qed.

Lemma msg_not_err (out : list output) (m c : string) (e : sql_error) :
  out ++ [Err c e] <> out ++ [Msg m].
Proof.
  intros Heq. apply app_inv_head in Heq. discriminate.
Qed.

Lemma bind_run {A B : Type} (m : M A) (k : A -> M B) (w w1 : world) (a : A) :
  m w = (inr a, w1) -> bind m k w = k a w1.
Proof. unfold bind. intros ->. reflexivity. Qed.

Lemma pragma_run (name : string) (s : store) (inp : list string)
  (out : list output) :
  pragma_table_info name (World s inp None out)
  = (inr (table_info s name), World s inp None out).
Proof. reflexivity. Qed.

Lemma bind_input_run {B : Type} (k : string -> M B) (s : store) (l : string)
  (rest : list string) (f : option nat) (out : list output) :
  bind input k (World s (l :: rest) f out) = k l (World s rest f out).
Proof. reflexivity. Qed.

(** Inversion of one [bind] of a run, for the primitive [inv] tells of. *)
Ltac run_bind H inv :=
  let a := fresh "a" in
  let w1 := fresh "w" in
  let x := fresh "x" in
  let H1 := fresh "H1" in
  apply bind_inv in H as [(a & w1 & H1 & H)|(x & H1 & ->)];
  apply inv in H1.

Lemma drop_column_choice_inv (name : string) (w w' : world) (r : exn + unit) :
  drop_column_choice name w = (r, w') ->
  (exists x, r = inl x /\ stdout w' = stdout w)
  \/ (r = inr tt /\ exists columns, rebuilt (db w) name columns (db w')).
Proof.
  unfold drop_column_choice. intros Hrun.
  run_bind Hrun pragma_inv; destruct H1 as (Hdb1 & _ & Hout1 & Hr1).
  2:{ left. eauto. }
  run_bind Hrun input_inv; destruct H1 as (Hdb2 & Hout2 & Hr2).
  2:{ left. exists x. split; congruence. }
  run_bind Hrun pragma_inv; destruct H1 as (Hdb3 & _ & Hout3 & Hr3).
  2:{ left. exists x. split; congruence. }
  run_bind Hrun rebuild_inv; destruct H1 as (_ & Hout4 & Hr4).
  2:{ left. exists x. split; congruence. }
  destruct Hr4 as [[_ Hr4]|(e & ?)]; [|discriminate].
  rewrite print_run in Hrun. injection Hrun as <- <-. cbn [db].
  right. rewrite Hdb3, Hdb2, Hdb1 in Hr4. eauto.
Qed.

Lemma rename_column_choice_inv (name : string) (w w' : world) (r : exn + unit) :
  rename_column_choice name w = (r, w') ->
  (exists x, r = inl x /\ stdout w' = stdout w)
  \/ (r = inr tt /\ exists columns, rebuilt (db w) name columns (db w')).
Proof.
  unfold rename_column_choice. intros Hrun.
  run_bind Hrun pragma_inv; destruct H1 as (Hdb1 & _ & Hout1 & Hr1).
  2:{ left. eauto. }
  run_bind Hrun input_inv; destruct H1 as (Hdb2 & Hout2 & Hr2).
  2:{ left. exists x. split; congruence. }
  run_bind Hrun input_inv; destruct H1 as (Hdb2' & Hout2' & Hr2').
  2:{ left. exists x. split; congruence. }
  run_bind Hrun pragma_inv; destruct H1 as (Hdb3 & _ & Hout3 & Hr3).
  2:{ left. exists x. split; congruence. }
  run_bind Hrun rebuild_inv; destruct H1 as (_ & Hout4 & Hr4).
  2:{ left. exists x. split; congruence. }
  destruct Hr4 as [[_ Hr4]|(e & ?)]; [|discriminate].
  rewrite print_run in Hrun. injection Hrun as <- <-. cbn [db].
  right. rewrite Hdb3, Hdb2', Hdb2, Hdb1 in Hr4. eauto.
Qed.

(** A run of [modify_table] whose last line is not an error line: its
    branch returned normally. *)
Lemma try_sqlite_success (body : M unit) (c m : string) (w w' w0 : world)
  (r0 : exn + unit) :
  body w = (r0, w0) ->
  try_sqlite body (fun e => print (Err c e)) w = (inr tt, w') ->
  stdout w' = stdout w ++ [Msg m] ->
  (exists x, r0 = inl x /\ stdout w0 = stdout w) -> False.
Proof.
  unfold try_sqlite. intros -> Hrun Hout (x & -> & Hout0).
  destruct x; try discriminate.
  rewrite print_run in Hrun. injection Hrun as <-. cbn [stdout] in Hout.
  rewrite Hout0 in Hout. exact (msg_not_err _ _ _ _ Hout).
Qed.

Lemma dropped_rebuilt (name col : string) (w w' : world) :
  dropped name col w w' -> exists columns, rebuilt (db w) name columns (db w').
Proof.
  intros (rest & Hin & Hrun & Hout).
  destruct w as [s inp f out]. cbn [stdin stdout db] in *. subst inp.
  destruct (drop_column_choice name (World s (col :: rest) f out))
    as [r0 w0] eqn:Hbody.
  pose proof Hbody as Hinv. apply drop_column_choice_inv in Hinv.
  destruct Hinv as [Hfail|(-> & Hok)].
  - exfalso. refine (try_sqlite_success _ _ _ _ _ _ _ _ Hrun Hout Hfail).
    rewrite bind_input_run. exact Hbody.
  - unfold modify_table, try_sqlite in Hrun. rewrite bind_input_run in Hrun.
    change (Py.strip "3") with "3" in Hrun.
    cbn [String.eqb Ascii.eqb Bool.eqb] in Hrun. rewrite Hbody in Hrun.
    injection Hrun as <-. exact Hok.
Qed.

Lemma renamed_rebuilt (name old new : string) (w w' : world) :
  renamed name old new w w' ->
  exists columns, rebuilt (db w) name columns (db w').
Proof.
  intros (rest & Hin & Hrun & Hout).
  destruct w as [s inp f out]. cbn [stdin stdout db] in *. subst inp.
  destruct (rename_column_choice name (World s (old :: new :: rest) f out))
    as [r0 w0] eqn:Hbody.
  pose proof Hbody as Hinv. apply rename_column_choice_inv in Hinv.
  destruct Hinv as [Hfail|(-> & Hok)].
  - exfalso. refine (try_sqlite_success _ _ _ _ _ _ _ _ Hrun Hout Hfail).
    rewrite bind_input_run. exact Hbody.
  - unfold modify_table, try_sqlite in Hrun. rewrite bind_input_run in Hrun.
    change (Py.strip "2") with "2" in Hrun.
    cbn [String.eqb Ascii.eqb Bool.eqb] in Hrun. rewrite Hbody in Hrun.
    injection Hrun as <-. exact Hok.
Qed.

(** ** Update and delete on a table without primary key *)

Lemma infos_names (i : nat) (cols : list column) :
  map i_name (infos i cols) = map cname cols.
Proof.
  revert i. induction cols as [|c cols IH]; intros i; simpl;
    [reflexivity | rewrite IH; reflexivity].
Qed.

Section NoPrimaryKey.

Context {E : Engine}.

Lemma update_record_no_primary_key (name : string) (s : store)
  (inp : list string) (out : list output) :
  no_primary_key (primary_key_of (table_info s name)) = true ->
  update_record name (World s inp None out)
  = (inr tt,
     World s inp None
       (out ++ [Msg ("Error: No primary key found in table " ++ name)])).
Proof.
  intros Hpk. unfold update_record, try_sqlite.
  rewrite (bind_run _ _ _ _ _ (pragma_run name s inp out)), Hpk. reflexivity.
Qed.

Lemma view_table_data_run (name : string) (s : store) (t : table)
  (inp : list string) (out : list output) :
  find_table s name = Some t ->
  view_table_data name (World s inp None out)
  = (inr tt, World s inp None (out ++ [shown name t])).
Proof.
  intros Ht. unfold view_table_data, try_sqlite.
  assert (Hq : query (fun s0 => select_all s0 name) (World s inp None out)
               = (inr (trows t), World s inp None out)).
  { unfold query, bind, step, select_all. cbn [fault db]. rewrite Ht. reflexivity. }
  rewrite (bind_run _ _ _ _ _ Hq).
  rewrite (bind_run _ _ _ _ _ (pragma_run name s inp out)).
  unfold table_info, shown. rewrite Ht, infos_names.
  destruct (trows t); reflexivity.
Qed.

Lemma delete_record_no_primary_key (name : string) (s : store) (t : table)
  (inp : list string) (out : list output) :
  find_table s name = Some t ->
  primary_key_of (table_info s name) = None ->
  delete_record name (World s inp None out)
  = (inr tt,
     World s inp None
       (out ++ [shown name t;
                Msg ("Error: No primary key found in table " ++ name)])).
Proof.
  intros Ht Hpk. unfold delete_record, try_sqlite.
  rewrite (bind_run _ _ _ _ _ (view_table_data_run _ _ _ _ _ Ht)).
  rewrite (bind_run _ _ _ _ _ (pragma_run name s inp _)), Hpk.
  cbn [no_primary_key]. rewrite print_run. cbn [db stdin fault stdout].
  rewrite <- app_assoc. reflexivity.
Qed.

(** C10: after a column has been renamed or dropped with success, the
    table has no primary-key column, and an update or a delete on it prints
    the no-primary-key error, reads no input and leaves every row as it
    is. *)
Theorem rebuilt_table_refuses_update_and_delete (name : string) (w w' : world)
  (inp : list string) (out : list output) :
  (exists col, dropped name col w w')
  \/ (exists old new, renamed name old new w w') ->
  exists t',
    find_table (db w') name = Some t'
    /\ Forall (fun c => cpk c = O) (tcols t')
    /\ update_record name (World (db w') inp None out)
       = (inr tt,
          World (db w') inp None
            (out ++ [Msg ("Error: No primary key found in table " ++ name)]))
    /\ delete_record name (World (db w') inp None out)
       = (inr tt,
          World (db w') inp None
            (out ++ [shown name t';
                     Msg ("Error: No primary key found in table " ++ name)])).
Proof.
  intros Hdone.
  assert (Hr : exists columns, rebuilt (db w) name columns (db w')).
  { destruct Hdone as [(col & Hd)|(old & new & Hn)];
      [exact (dropped_rebuilt _ _ _ _ Hd) | exact (renamed_rebuilt _ _ _ _ _ Hn)]. }
  destruct Hr as (columns & Hr).
  destruct (rebuilt_no_primary_key _ _ _ _ Hr) as (t' & Ht' & Hkey & Hpk).
  exists t'. repeat split; try assumption.
  - apply update_record_no_primary_key. rewrite Hpk. reflexivity.
  - apply delete_record_no_primary_key; assumption.
Qed.

End NoPrimaryKey.

(** ** Updates *)

Lemma execute_with_run (vals : list value) (stmt : store -> sql_error + store)
  (s : store) (inp : list string) (out : list output) :
  forallb bindable vals = true ->
  execute_with vals stmt (World s inp None out)
  = match stmt s with
    | inl e => (inl (SqliteError e), World s inp None out)
    | inr s' => (inr tt, World s' inp None out)
    end.
Proof.
  intros Hb. unfold execute_with, bind, step, bind_params. cbn [fault].
  rewrite Hb. unfold ret. cbn [db stdin fault stdout]. reflexivity.
Qed.

Lemma ask_updates_run (pk : string) (columns : list info) (answers rest : list string)
  (s : store) (f : option nat) (out : list output) :
  List.length answers = asked pk columns ->
  ask_updates pk columns (World s (answers ++ rest) f out)
  = (inr (changes (plan pk columns answers)), World s rest f out).
Proof.
  revert answers. induction columns as [|c columns IH]; intros answers Hlen.
  - destruct answers; [reflexivity | discriminate].
  - unfold asked in Hlen. cbn [filter ask_updates plan] in *.
    destruct (negb (i_name c =? pk)%string).
    + destruct answers as [|a answers]; [discriminate|].
      injection Hlen as Hlen. cbn [app]. rewrite bind_input_run.
      rewrite (bind_run _ _ _ _ _ (IH answers Hlen)). cbn [changes].
      destruct (Py.truthy a); reflexivity.
    + cbn [changes]. apply IH, Hlen.
Qed.

Lemma changes_bindable (p : list (info * option string)) (v : value) :
  bindable v = true -> forallb bindable (map snd (changes p) ++ [v]) = true.
Proof.
  intros Hv. induction p as [|[c [a|]] p IH]; cbn [changes].
  - simpl. rewrite Hv. reflexivity.
  - destruct (Py.truthy a); [cbn; exact IH | exact IH].
  - exact IH.
Qed.

Section UpdateFacts.

Context {E : Engine}.

(** What [update_record] does on a table with a primary key, once the
    answers are in. *)
Lemma update_record_run (name : string) (s : store) (t : table) (pk pkval : string)
  (answers rest : list string) (out : list output) :
  find_table s name = Some t ->
  primary_key_of (table_info s name) = Some pk ->
  Py.truthy pk = true ->
  List.length answers = asked pk (table_info s name) ->
  update_record name (World s (pkval :: answers ++ rest) None out)
  = match changes (plan pk (table_info s name) answers) with
    | [] => (inr tt, World s rest None (out ++ [shown name t; Msg "No changes made"]))
    | ups =>
        match update_where s name ups pk (VText pkval) with
        | inl e =>
            (inr tt,
             World s rest None
               (out ++ [shown name t; Err "Error updating record" e]))
        | inr s' =>
            (inr tt,
             World s' rest None
               (out ++ [shown name t; Msg "Record updated successfully"]))
        end
    end.
Proof.
  intros Ht Hpk Htr Hlen. unfold update_record, try_sqlite.
  rewrite (bind_run _ _ _ _ _ (pragma_run name s _ out)), Hpk.
  cbn [no_primary_key pk_name]. rewrite Htr. cbn [negb].
  rewrite (bind_run _ _ _ _ _ (view_table_data_run _ _ _ _ _ Ht)).
  rewrite bind_input_run.
  rewrite (bind_run _ _ _ _ _ (ask_updates_run _ _ _ _ _ _ _ Hlen)).
  pose proof (changes_bindable (plan pk (table_info s name) answers)
                (VText pkval) eq_refl) as Hb.
  destruct (changes (plan pk (table_info s name) answers)) as [|u ups].
  - rewrite print_run. cbn [db stdin fault stdout]. rewrite <- app_assoc. reflexivity.
  - unfold bind. rewrite (execute_with_run _ _ _ _ _ Hb).
    destruct (update_where s name (u :: ups) pk (VText pkval));
      rewrite print_run; cbn [db stdin fault stdout]; rewrite <- app_assoc;
      reflexivity.
Qed.

(** *** An update that matches no row *)

Lemma resolve_some (cols : list column) (n : string) :
  In n (map cname cols) -> exists i, resolve cols n = Some i.
Proof.
  induction cols as [|c cols IH]; simpl; [contradiction|].
  intros [<-|Hin].
  - rewrite name_eqb_refl. eauto.
  - destruct (name_eqb (cname c) n); [eauto|].
    destruct (IH Hin) as (i & ->). simpl. eauto.
Qed.

Lemma resolve_sets_some (cols : list column) (sets : list (string * value)) :
  (forall n v, In (n, v) sets -> In n (map cname cols)) ->
  exists a, resolve_sets cols sets = inr a.
Proof.
  induction sets as [|[n v] sets IH]; intros Hin; simpl; [eauto|].
  destruct (resolve_some cols n (Hin n v (or_introl eq_refl))) as (i & ->).
  destruct IH as (a & ->); [intros; eapply Hin; right; eassumption|]. eauto.
Qed.

Lemma changes_plan_names (pk : string) (cols : list column) (i : nat)
  (answers : list string) (n : string) (v : value) :
  In (n, v) (changes (plan pk (infos i cols) answers)) -> In n (map cname cols).
Proof.
  revert i answers. induction cols as [|c cols IH]; intros i answers;
    cbn [infos plan changes map]; [contradiction|].
  cbn [i_name]. destruct (negb (cname c =? pk)%string).
  - destruct answers as [|a answers]; cbn [changes].
    + intros Hin. right. eapply IH, Hin.
    + destruct (Py.truthy a).
      * intros [Heq|Hin]; [injection Heq as <- _; left; reflexivity|].
        right. eapply IH, Hin.
      * intros Hin. right. eapply IH, Hin.
  - cbn [changes]. intros Hin. right. eapply IH, Hin.
Qed.

Lemma update_clash_unchanged (ks : list (list nat)) (before rows : list row) :
  update_clash ks before (map (fun r => (false, r)) rows) = false.
Proof.
  revert before. induction rows as [|r rows IH]; intros before; simpl;
    [reflexivity | apply IH].
Qed.

Lemma existsb_unchanged (g : bool * row -> bool) (rows : list row) :
  existsb (fun m : bool * row => fst m && g m) (map (fun r => (false, r)) rows)
  = false.
Proof. induction rows as [|r rows IH]; simpl; [reflexivity | exact IH]. Qed.

Lemma update_where_no_match (s : store) (name : string) (t : table)
  (sets : list (string * value)) (col : string) (param : value) :
  find_table s name = Some t ->
  (forall n v, In (n, v) sets -> In n (map cname (tcols t))) ->
  select_where s name col param = inr [] ->
  update_where s name sets col param = inr s.
Proof.
  intros Ht Hsets Hsel. unfold update_where. unfold select_where in Hsel.
  rewrite Ht in *. destruct (resolve_sets_some _ _ Hsets) as (a & ->).
  destruct (resolve (tcols t) col) as [k|]; [|discriminate].
  injection Hsel as Hsel.
  assert (Hmap : map (fun r => if where_eq (column_at (tcols t) k) (cell r k) param
                               then (true, assign a r) else (false, r)) (trows t)
                 = map (fun r => (false, r)) (trows t)).
  { apply map_ext_in. intros r Hr.
    destruct (where_eq (column_at (tcols t) k) (cell r k) param) eqn:Hw;
      [|reflexivity].
    assert (Hf : In r (filter (fun r => where_eq (column_at (tcols t) k)
                                          (cell r k) param) (trows t))).
    { apply filter_In. split; assumption. }
    rewrite Hsel in Hf. contradiction. }
  rewrite Hmap, update_clash_unchanged.
  rewrite !existsb_unchanged. rewrite map_map. cbn [snd]. rewrite map_id.
  f_equal. destruct t as [tn tc tr]. apply set_table_same. exact Ht.
Qed.

(** C6: an update whose primary-key value matches no row changes nothing
    and reports success. *)
Theorem update_of_missing_record_reports_success (name : string) (s : store)
  (t : table) (pk pkval : string) (answers rest : list string)
  (out : list output) :
  find_table s name = Some t ->
  primary_key_of (table_info s name) = Some pk ->
  Py.truthy pk = true ->
  List.length answers = asked pk (table_info s name) ->
  changes (plan pk (table_info s name) answers) <> [] ->
  select_where s name pk (VText pkval) = inr [] ->
  update_record name (World s (pkval :: answers ++ rest) None out)
  = (inr tt,
     World s rest None (out ++ [shown name t; Msg "Record updated successfully"])).
Proof.
  intros Ht Hpk Htr Hlen Hne Hsel.
  rewrite (update_record_run _ _ _ _ _ _ _ _ Ht Hpk Htr Hlen).
  destruct (changes (plan pk (table_info s name) answers)) as [|u ups] eqn:Hch;
    [contradiction|].
  rewrite (update_where_no_match _ _ _ _ _ _ Ht); [reflexivity| |exact Hsel].
  intros n v Hin. rewrite <- Hch in Hin. unfold table_info in Hin.
  rewrite Ht in Hin. eapply changes_plan_names, Hin.
Qed.

(** *** The fields an update leaves alone *)

Lemma cell_set_nth_other (r : row) (i j : nat) (v : value) :
  i <> j -> cell (set_nth i v r) j = cell r j.
Proof.
  unfold cell. revert i j. induction r as [|x r IH]; intros i j Hij.
  - destruct i; reflexivity.
  - destruct i as [|i], j as [|j]; simpl; try reflexivity; try contradiction.
    apply IH. congruence.
Qed.

Lemma assign_other (a : list (nat * value)) (r : row) (j : nat) :
  ~ In j (map fst a) -> cell (assign a r) j = cell r j.
Proof.
  unfold assign. revert r. induction a as [|[i v] a IH]; intros r Hj; simpl in *.
  - reflexivity.
  - rewrite IH; [|tauto]. apply cell_set_nth_other. tauto.
Qed.

Lemma resolve_sets_fst (cols : list column) (sets : list (string * value))
  (a : list (nat * value)) (j : nat) :
  resolve_sets cols sets = inr a -> In j (map fst a) ->
  exists n v, In (n, v) sets /\ resolve cols n = Some j.
Proof.
  revert a. induction sets as [|[n v] sets IH]; intros a; simpl.
  - intros Heq. injection Heq as <-. contradiction.
  - destruct (resolve cols n) as [i|] eqn:Hn; [|discriminate].
    destruct (resolve_sets cols sets) as [e|a'] eqn:Ha; [discriminate|].
    intros Heq. injection Heq as <-. simpl. intros [<-|Hin].
    + exists n, v. auto.
    + destruct (IH a' eq_refl Hin) as (n' & v' & Hin' & Hr). eauto.
Qed.

(** A successful UPDATE keeps the columns and the number of rows, and in
    every row the cells of the columns its SET list does not name. *)
Lemma update_where_frame (s s' : store) (name : string) (t : table)
  (sets : list (string * value)) (col : string) (param : value) :
  find_table s name = Some t ->
  update_where s name sets col param = inr s' ->
  exists rows',
    find_table s' name = Some (Table (tname t) (tcols t) rows')
    /\ List.length rows' = List.length (trows t)
    /\ forall i j r r',
         (forall n v, In (n, v) sets -> resolve (tcols t) n <> Some j) ->
         nth_error (trows t) i = Some r -> nth_error rows' i = Some r' ->
         cell r' j = cell r j.
Proof.
  intros Ht Hup. unfold update_where in Hup. rewrite Ht in Hup.
  destruct (resolve_sets (tcols t) sets) as [e|a] eqn:Ha; [discriminate|].
  destruct (resolve (tcols t) col) as [k|]; [|discriminate].
  destruct (existsb _ _); [discriminate|].
  destruct (existsb _ _); [discriminate|].
  destruct (update_clash _ _ _); [discriminate|].
  injection Hup as <-. eexists. split; [|split].
  - apply (find_set_table _ _ t); [exact Ht|]. cbn [tname].
    apply (find_table_name _ _ _ Ht).
  - rewrite !length_map. reflexivity.
  - intros i j r r' Hfree Hr Hr'. rewrite map_map, nth_error_map, Hr in Hr'.
    cbn [option_map] in Hr'. injection Hr' as <-.
    destruct (where_eq _ _ _); cbn [snd]; [|reflexivity].
    apply assign_other. intros Hin.
    destruct (resolve_sets_fst _ _ _ _ Ha Hin) as (n & v & Hnv & Hres).
    exact (Hfree n v Hnv Hres).
Qed.

Lemma existsb_false_in {A : Type} (f : A -> bool) (l : list A) (x : A) :
  existsb f l = false -> In x l -> f x = false.
Proof.
  intros Hex Hin. destruct (f x) eqn:Hfx; [|reflexivity].
  rewrite <- Hex. symmetry. apply existsb_exists. eauto.
Qed.

Lemma resolve_distinct (cols : list column) (m : nat) (c : column) :
  distinct (map cname cols) = true -> nth_error cols m = Some c ->
  resolve cols (cname c) = Some m.
Proof.
  revert m. induction cols as [|c0 cols IH]; intros m Hd Hm.
  - destruct m; discriminate.
  - cbn [map distinct] in Hd. apply andb_true_iff in Hd as [Hc0 Hd].
    apply negb_true_iff in Hc0. destruct m as [|m]; cbn in Hm |- *.
    + injection Hm as <-. rewrite name_eqb_refl. reflexivity.
    + rewrite (existsb_false_in _ _ (cname c) Hc0).
      * rewrite (IH m Hd Hm). reflexivity.
      * apply in_map. eapply nth_error_In, Hm.
Qed.

Lemma plan_nth (pk : string) (cols : list column) (i : nat) (answers : list string)
  (j : nat) (c : info) (ans : option string) :
  nth_error (plan pk (infos i cols) answers) j = Some (c, ans) ->
  exists col, nth_error cols j = Some col /\ i_name c = cname col.
Proof.
  revert i answers j. induction cols as [|c0 cols IH]; intros i answers j;
    cbn [infos plan].
  - destruct j; discriminate.
  - cbn [i_name].
    assert (Hcase : forall p answers',
               nth_error ((Info i (cname c0) (ctype c0) (cnotnull c0) (cdflt c0)
                             (cpk c0), p) :: plan pk (infos (S i) cols) answers') j
               = Some (c, ans) ->
               exists col, nth_error (c0 :: cols) j = Some col
                           /\ i_name c = cname col).
    { intros p answers'. destruct j as [|j]; cbn.
      - intros Heq. injection Heq as <- _. eauto.
      - apply IH. }
    destruct (negb (cname c0 =? pk)%string); [destruct answers|]; apply Hcase.
Qed.

Lemma changes_in (p : list (info * option string)) (n : string) (v : value) :
  In (n, v) (changes p) ->
  exists m c a,
    nth_error p m = Some (c, Some a) /\ Py.truthy a = true /\ n = i_name c.
Proof.
  induction p as [|[c [a|]] p IH]; cbn [changes]; [contradiction| |].
  - destruct (Py.truthy a) eqn:Ha.
    + intros [Heq|Hin].
      * injection Heq as <- _. exists O, c, a. auto.
      * destruct (IH Hin) as (m & c' & a' & H'). exists (S m), c', a'. exact H'.
    + intros Hin. destruct (IH Hin) as (m & c' & a' & H').
      exists (S m), c', a'. exact H'.
  - intros Hin. destruct (IH Hin) as (m & c' & a' & H').
    exists (S m), c', a'. exact H'.
Qed.

(** The columns outside the change set are not among those the UPDATE
    assigns. *)
Lemma unanswered_not_assigned (pk : string) (cols : list column)
  (answers : list string) (j : nat) (c : info) (ans : option string)
  (n : string) (v : value) :
  distinct (map cname cols) = true ->
  nth_error (plan pk (infos 0 cols) answers) j = Some (c, ans) ->
  ans = None \/ ans = Some "" ->
  In (n, v) (changes (plan pk (infos 0 cols) answers)) ->
  resolve cols n <> Some j.
Proof.
  intros Hd Hj Hans Hin Hres.
  destruct (changes_in _ _ _ Hin) as (m & cm & a & Hm & Ha & ->).
  destruct (plan_nth _ _ _ _ _ _ _ Hm) as (colm & Hcolm & Hname).
  rewrite Hname, (resolve_distinct _ _ _ Hd Hcolm) in Hres.
  injection Hres as <-. rewrite Hm in Hj. injection Hj as <- <-.
  destruct Hans as [Hans|Hans]; [discriminate|].
  injection Hans as ->. discriminate.
Qed.

(** C7: after [update_record], in every row, the primary key and every
    field whose answer was empty hold the value they held before; an empty
    answer is how a field is left out, so no answer sets a field to the
    empty value. *)
Theorem update_keeps_unanswered_fields (name : string) (s : store) (t : table)
  (pkval : string) (answers rest : list string) (out : list output) :
  find_table s name = Some t ->
  distinct (map cname (tcols t)) = true ->
  List.length answers
  = asked (pk_name (primary_key_of (table_info s name))) (table_info s name) ->
  exists t',
    find_table (db (snd (update_record name
                           (World s (pkval :: answers ++ rest) None out)))) name
    = Some t'
    /\ tcols t' = tcols t
    /\ List.length (trows t') = List.length (trows t)
    /\ forall i j r r' c ans,
         nth_error (plan (pk_name (primary_key_of (table_info s name)))
                      (table_info s name) answers) j = Some (c, ans) ->
         ans = None \/ ans = Some "" ->
         nth_error (trows t) i = Some r -> nth_error (trows t') i = Some r' ->
         cell r' j = cell r j.
Proof.
  intros Ht Hd Hlen.
  assert (Hsame : forall w', db w' = s ->
            exists t', find_table (db w') name = Some t'
              /\ tcols t' = tcols t
              /\ List.length (trows t') = List.length (trows t)
              /\ forall i j r r' (c : info) (ans : option string),
                   nth_error (plan (pk_name (primary_key_of (table_info s name)))
                                (table_info s name) answers) j = Some (c, ans) ->
                   ans = None \/ ans = Some "" ->
                   nth_error (trows t) i = Some r ->
                   nth_error (trows t') i = Some r' -> cell r' j = cell r j).
  { intros w' ->. exists t. repeat split; try assumption.
    intros i j r r' c ans _ _ Hr Hr'. congruence. }
  destruct (no_primary_key (primary_key_of (table_info s name))) eqn:Hno.
  - rewrite (update_record_no_primary_key _ _ _ _ Hno). apply Hsame. reflexivity.
  - destruct (primary_key_of (table_info s name)) as [pk|] eqn:Hpk;
      [|discriminate]. cbn [no_primary_key pk_name] in *.
    apply negb_false_iff in Hno.
    rewrite (update_record_run _ _ _ _ _ _ _ _ Ht Hpk Hno Hlen).
    destruct (changes (plan pk (table_info s name) answers)) as [|u ups] eqn:Hch;
      [apply Hsame; reflexivity|].
    destruct (update_where s name (u :: ups) pk (VText pkval)) as [e|s'] eqn:Hup;
      [apply Hsame; reflexivity|].
    cbn [snd db].
    destruct (update_where_frame _ _ _ _ _ _ _ Ht Hup) as (rows' & Hf & Hl & Hfr).
    eexists. split; [exact Hf|]. cbn [tcols trows]. repeat split; [exact Hl|].
    intros i j r r' c ans Hj Hans Hr Hr'. apply (Hfr i j r r'); try assumption.
    intros n v Hin. rewrite <- Hch in Hin. unfold table_info in Hin, Hj.
    rewrite Ht in Hin, Hj.
    exact (unanswered_not_assigned _ _ _ _ _ _ _ _ Hd Hj Hans Hin).
Qed.

End UpdateFacts.

(** ** Dropping a column *)















(** ** Runs of the programs on concrete stores *)

(** Signups on an empty table are numbered from U001. *)
Lemma signup_numbers_from_U001 (H : Hasher) :
  map issued
    (fst (signup_all (E := sqlite_engine)
            [request "amy" "amy@example.com"; request "bob" "bob@example.com";
             request "amy" "amy@example.org"; request "cat" "bob@example.com";
             request "dan" "dan@example.com"]
            [User_table true []]))
  = [inr (Some "U001"); inr (Some "U002"); inr None; inr None; inr (Some "U003")].
Proof. vm_compute. reflexivity. Qed.

(** C2: once U999 has been issued, two signups with fresh usernames and
    emails are both given U1000 (the latest identifier is looked up in text
    order, where U999 comes after U1000); when the identifier is the
    primary key the second of them ends in a constraint error. *)
Theorem signup_repeats_U1000 (H : Hasher) :
  let reqs := [request "amy" "amy@example.com"; request "bob" "bob@example.com"] in
  map issued (fst (signup_all (E := sqlite_engine) reqs
                     [User_table false [user_999]]))
  = [inr (Some "U1000"); inr (Some "U1000")]
  /\ map issued (fst (signup_all (E := sqlite_engine) reqs
                        [User_table true [user_999]]))
     = [inr (Some "U1000"); inl (SqliteError ConstraintFailed)].
Proof. split; vm_compute; reflexivity. Qed.

(** C1: a rebuild whose DROP TABLE step the engine fails leaves the shadow
    table next to the original, and one whose final rename fails leaves
    only the shadow table; the handler prints the error and undoes
    nothing. *)
Theorem rebuild_failure_keeps_shadow_table :
  let shadow :=
    Table "routines_new"
      [ Column "id" "INT" false None 0 false;
        Column "title" "TEXT" false None 0 false ]
      [ [VInt 1; VText "Leg Day"]; [VInt 2; VText "Arm Day"] ] in
  modify_table "routines" (typing [routines] ["3"; "notes"] (Some 3%nat))
  = (inr tt, World [routines; shadow] [] None [Err "Error modifying table" IoError])
  /\ modify_table "routines" (typing [routines] ["3"; "notes"] (Some 4%nat))
     = (inr tt, World [shadow] [] None [Err "Error modifying table" IoError]).
Proof. split; vm_compute; reflexivity. Qed.

(** C5: a value that [int] rejects for an INTEGER column ends
    [insert_record] with a [ValueError] that its handler does not catch:
    nothing is printed and no row is added. *)
Theorem insert_record_value_error (E : Engine) :
  insert_record "routines" (typing [routines] ["abc"; "Rest Day"; ""] None)
  = (inl ValueError, World [routines] ["Rest Day"; ""] None []).
Proof. reflexivity. Qed.

(** The conversions of [insert_record]: integers and reals are parsed,
    an empty answer is NULL, every other type passes the text through. *)
Lemma coerce_cases :
  coerce "INTEGER" "42" = inr (VInt 42)
  /\ coerce "INTEGER" "" = inr VNull
  /\ coerce "REAL" "2.5" = inr (VReal "2.5")
  /\ coerce "REAL" "heavy" = inl ValueError
  /\ coerce "TEXT" "42" = inr (VText "42")
  /\ coerce "TIMESTAMP" "" = inr (VText "").
Proof. repeat split. Qed.

Lemma coerce_passes_text (col_type value : string) :
  col_type <> "INTEGER" -> col_type <> "REAL" ->
  coerce col_type value = inr (VText value).
Proof.
  intros Hi Hr. unfold coerce.
  apply String.eqb_neq in Hi. apply String.eqb_neq in Hr.
  rewrite Hi, Hr. reflexivity.
Qed.

(** An insert whose values all convert adds the row. *)
Lemma insert_record_adds_row :
  insert_record (E := sqlite_engine) "routines"
    (typing [routines] [""; "Rest Day"; ""] None)
  = (inr tt,
     World [Table "routines" (tcols routines)
              (trows routines ++ [[VInt 3; VText "Rest Day"; VText ""]])]
       [] None [Msg "Record inserted successfully"]).
Proof. vm_compute. reflexivity. Qed.

(** C8: renaming [title] to the name of another column reports success
    and replaces every title by the value of that column; renaming it to a
    name the table does not have fails at the copy, which selects the new
    name from the original table. *)
Theorem rename_column_loses_values :
  modify_table "routines" (typing [routines] ["2"; "title"; "notes"] None)
  = (inr tt,
     World
       [Table "routines"
          [ Column "id" "INT" false None 0 false;
            Column "notes" "TEXT" false None 0 false;
            Column "notes:1" "TEXT" false None 0 false ]
          [ [VInt 1; VText "squats"; VText "squats"];
            [VInt 2; VText "curls"; VText "curls"] ]]
       [] None [Msg "Column 'title' renamed to 'notes' successfully"])
  /\ modify_table "routines" (typing [routines] ["2"; "title"; "heading"] None)
     = (inr tt,
        World [routines] [] None
          [Err "Error modifying table" (NoSuchColumn "heading")]).
Proof. split; vm_compute; reflexivity. Qed.

(** ** The methods on concrete tables *)

Example identifier_examples :
  map identifier
    ["heading"; "_h1"; "Title2"; ""; "1"; "2fast"; "rowid"; "NULL"; "true";
     "*"; "title AS heading"; " routines"; "a b"; "order"; "sqlite_sequence"]
  = [true; true; true; false; false; false; false; false; false;
     false; false; false; false; false; false].
Proof. reflexivity. Qed.

(** The store [init_db] leaves behind: the table [users] and the table
    the engine keeps for AUTOINCREMENT, both of which [delete_table]
    lists. *)
Example init_db_tables :
  table_names (init_db []) = inr ["users"; "sqlite_sequence"]
  /\ init_db (init_db []) = init_db [].
Proof. split; reflexivity. Qed.

(** A row typed with a key smaller than the stored ones is read first
    from then on. *)
Example insert_record_smaller_key_first :
  insert_record (E := sqlite_engine) "routines"
    (typing [routines] ["0"; "Warm up"; ""] None)
  = (inr tt,
     World
       [Table "routines" (tcols routines)
          ([VInt 0; VText "Warm up"; VText ""] :: trows routines)]
       [] None [Msg "Record inserted successfully"]).
Proof. vm_compute. reflexivity. Qed.

(** A database that cannot be opened leaves the manager without a cursor,
    and the first method called on it raises. *)
Example view_table_data_without_cursor :
  call (view_table_data "routines")
    (connect "NextGenFitness.db" (inl IoError) ["2"] None)
  = (inl AttributeError,
     NoCursor ["2"] [Err "Error connecting to database" IoError])
  /\ call (view_table_data "routines")
       (connect "NextGenFitness.db" (inr [plans]) ["2"] None)
     = (inr tt,
        Connected
          (World [plans] ["2"] None
             [Msg "Successfully connected to database at: NextGenFitness.db";
              Err "Error viewing table data" (NoSuchTable "routines")])).
Proof. split; reflexivity. Qed.


(** When no column would be left, the copy has nothing to select and the
    drop ends in a store error. *)
Lemma drop_only_column_fails :
  let ids := Table "ids" [Column "id" "INTEGER" false None 1 false] [[VInt 1]] in
  modify_table "ids" (typing [ids] ["3"; "id"] None)
  = (inr tt, World [ids] [] None [Err "Error modifying table" SyntaxError]).
Proof. vm_compute. reflexivity. Qed.

(** With a table [routines_new] in the way, the drop ends in the error
    of the copy and changes nothing. *)
Lemma drop_column_shadow_table_in_the_way :
  let shadow := Table "routines_new" [Column "id" "INT" false None 0 false] [] in
  modify_table "routines" (typing [routines; shadow] ["3"; "notes"] None)
  = (inr tt,
     World [routines; shadow] [] None
       [Err "Error modifying table" (TableExists "routines_new")]).
Proof. vm_compute. reflexivity. Qed.


(** C6, as the claim states it, fails: no row has the primary key 99, and
    the update reports success. *)
Lemma update_of_missing_record_no_error :
  select_where (E := sqlite_engine) [routines] "routines" "id" (VText "99") = inr []
  /\ update_record (E := sqlite_engine) "routines"
       (typing [routines] ["99"; "Rest Day"; ""] None)
     = (inr tt,
        World [routines] [] None
          [Grid ["id"; "title"; "notes"] (trows routines);
           Msg "Record updated successfully"]).
Proof. split; vm_compute; reflexivity. Qed.

Lemma update_of_missing_record_reports_success_witness :
  update_record (E := sqlite_engine) "routines"
    (World [routines] ("99" :: ["Rest Day"; ""] ++ []) None [])
  = (inr tt,
     World [routines] [] None
       ([] ++ [shown "routines" routines; Msg "Record updated successfully"])).
Proof.
  apply (update_of_missing_record_reports_success (E := sqlite_engine)
           "routines" [routines] routines "id" "99" ["Rest Day"; ""] [] []);
    try reflexivity.
  discriminate.
Defined.

(** C7, as the claim states it, fails: the empty value given for [title]
    does not make the title empty; it is read as leaving the title out. *)
Lemma update_cannot_set_empty :
  update_record (E := sqlite_engine) "routines"
    (typing [routines] ["1"; ""; "stretch"] None)
  = (inr tt,
     World
       [Table "routines" (tcols routines)
          [ [VInt 1; VText "Leg Day"; VText "stretch"];
            [VInt 2; VText "Arm Day"; VText "curls"] ]]
       [] None
       [Grid ["id"; "title"; "notes"] (trows routines);
        Msg "Record updated successfully"]).
Proof. vm_compute. reflexivity. Qed.

Lemma update_keeps_unanswered_fields_witness :
  exists t',
    find_table (db (snd (update_record (E := sqlite_engine) "routines"
                           (World [routines] ("1" :: [""; "stretch"] ++ [])
                              None [])))) "routines"
    = Some t'
    /\ forall i r r',
         nth_error (trows routines) i = Some r ->
         nth_error (trows t') i = Some r' ->
         cell r' 0 = cell r 0 /\ cell r' 1 = cell r 1.
Proof.
  destruct (update_keeps_unanswered_fields (E := sqlite_engine) "routines"
              [routines] routines "1" [""; "stretch"] [] [])
    as (t' & Hfind & _ & _ & Hframe); [reflexivity | reflexivity | reflexivity |].
  exists t'. split; [exact Hfind|]. intros i r r' Hr Hr'. split.
  - apply (Hframe i 0%nat r r' (Info 0 "id" "INTEGER" false None 1) None);
      [reflexivity | left; reflexivity | exact Hr | exact Hr'].
  - apply (Hframe i 1%nat r r' (Info 1 "title" "TEXT" false None 0) (Some ""));
      [reflexivity | right; reflexivity | exact Hr | exact Hr'].
Defined.

Lemma rebuilt_table_refuses_update_and_delete_witness :
  let w := typing [routines] ["3"; "notes"] None in
  let w' := snd (modify_table "routines" w) in
  dropped "routines" "notes" w w'
  /\ update_record (E := sqlite_engine) "routines"
       (World (db w') ["1"; "Push Day"] None [])
     = (inr tt,
        World (db w') ["1"; "Push Day"] None
          ([] ++ [Msg "Error: No primary key found in table routines"])).
Proof.
  assert (Hd : dropped "routines" "notes" (typing [routines] ["3"; "notes"] None)
                 (snd (modify_table "routines"
                         (typing [routines] ["3"; "notes"] None)))).
  { exists []. repeat split. }
  split; [exact Hd|].
  destruct (rebuilt_table_refuses_update_and_delete (E := sqlite_engine)
              "routines" _ _ ["1"; "Push Day"] []
              (or_introl (ex_intro _ "notes" Hd)))
    as (t' & _ & _ & Hupdate & _).
  exact Hupdate.
Defined.

(** * Further properties *)

(** ** The handlers on the table of users *)

Lemma name_eqb_congr (a b c : string) :
  name_eqb a b = true -> name_eqb a c = name_eqb b c.
Proof.
  unfold name_eqb. rewrite String.eqb_eq. intros ->. reflexivity.
Qed.

Lemma find_set_table_other (s : store) (n m : string) (t' : table) :
  name_eqb n m = false -> name_eqb (tname t') n = true ->
  find_table (set_table s n t') m = find_table s m.
Proof.
  intros Hnm Ht'. induction s as [|x s IH]; simpl; [reflexivity|].
  destruct (name_eqb (tname x) n) eqn:Hx; simpl.
  - rewrite (name_eqb_congr _ _ m Ht'), (name_eqb_congr _ _ m Hx), Hnm. reflexivity.
  - rewrite IH. reflexivity.
Qed.

Section MoreHandlerFacts.

Context {H : Hasher}.

Lemma insert_user_row (key : bool) (tn : string) (rows : list row)
  (id u h : string) (e : option string) (role : Z) (s : store) :
  find_table s "User" = Some (Table tn (tcols (User_table key [])) rows) ->
  let r := [VText id; VText u; param e; VText h; VInt role] in
  insert_into (E := sqlite_engine) s "User"
    ["user_id"; "username"; "email"; "password"; "role"] r
  = if existsb (clashes_any (E := sqlite_engine)
                  (keys (tcols (User_table key []))) r) rows
    then inl ConstraintFailed
    else inr (set_table s "User"
                (Table tn (tcols (User_table key [])) (rows ++ [r]))).
Proof.
  intros Ht r. unfold insert_into. rewrite Ht. cbn [tcols tname trows].
  destruct key, e; reflexivity.
Qed.

Lemma insert_user_null_name (key : bool) (tn : string) (rows : list row)
  (id h : string) (e : option string) (role : Z) (s : store) :
  find_table s "User" = Some (Table tn (tcols (User_table key [])) rows) ->
  insert_into (E := sqlite_engine) s "User"
    ["user_id"; "username"; "email"; "password"; "role"]
    [VText id; VNull; param e; VText h; VInt role]
  = inl ConstraintFailed.
Proof.
  intros Ht. unfold insert_into. rewrite Ht. cbn [tcols tname trows].
  destruct key, e; reflexivity.
Qed.

Lemma signup_created (key : bool) (salt : string) (data : signup_data)
  (s s' : store) (t : table) (r : response) :
  find_table s "User" = Some t ->
  tcols t = tcols (User_table key []) ->
  signup (E := sqlite_engine) salt data s = (inr r, s') ->
  status r = 201 ->
  exists u rows n,
    su_username data = Some u
    /\ select_where (E := sqlite_engine) s "User" "username" (VText u) = inr []
    /\ select_where (E := sqlite_engine) s "User" "email" (param (su_email data))
       = inr []
    /\ select_last (E := sqlite_engine) s "User" "user_id" = inr rows
    /\ new_num rows = inr n
    /\ r = Response 201 [("message", "User registered successfully");
                         ("user_id", "U" ++ Py.format_03d n)%string]
    /\ s' = set_table s "User"
              (Table (tname t) (tcols t)
                 (trows t ++
                  [[VText ("U" ++ Py.format_03d n); VText u; param (su_email data);
                    VText (generate_password_hash salt (su_password data));
                    VInt (match su_role data with Some x => x | None => 1 end)]])).
Proof.
  intros Ht Hcols Hrun H201. destruct t as [tn tc rows0]. cbn [tcols] in Hcols.
  subst tc. unfold signup in Hrun.
  destruct (select_where s "User" "username" (param (su_username data)))
    as [e|[|? ?]] eqn:Hu; try (injection Hrun as <- <-; discriminate);
    try discriminate.
  destruct (select_where s "User" "email" (param (su_email data)))
    as [e|[|? ?]] eqn:He; try (injection Hrun as <- <-; discriminate);
    try discriminate.
  destruct (select_last s "User" "user_id") as [e|rows] eqn:Hl; [discriminate|].
  destruct (new_num rows) as [x|n] eqn:Hn; [discriminate|].
  destruct (negb (bindable _)); [discriminate|].
  destruct (su_username data) as [u|] eqn:Husr; cbn [param] in Hrun.
  2:{ rewrite (insert_user_null_name _ _ _ _ _ _ _ _ Ht) in Hrun. discriminate. }
  rewrite (insert_user_row _ _ _ _ _ _ _ _ _ Ht) in Hrun.
  destruct (existsb _ rows0); [discriminate|].
  injection Hrun as <- <-.
  exists u, rows, n. repeat split; assumption.
Qed.

Lemma filter_nil_find {A : Type} (f : A -> bool) (l : list A) :
  filter f l = [] -> find f l = None.
Proof.
  intros Hf. rewrite filter_hd_find in Hf.
  destruct (find f l); [discriminate | reflexivity].
Qed.

Lemma find_app_last {A : Type} (f : A -> bool) (l : list A) (x : A) :
  find f l = None -> f x = true -> find f (l ++ [x]) = Some x.
Proof.
  intros Hl Hx. induction l as [|a l IH]; simpl in *.
  - rewrite Hx. reflexivity.
  - destruct (f a); [discriminate | exact (IH Hl)].
Qed.

(** The store a successful signup leaves, and what its lookups find. *)
Lemma signup_stored (key : bool) (salt : string) (data : signup_data)
  (s s' : store) (t : table) (r : response) :
  find_table s "User" = Some t ->
  tcols t = tcols (User_table key []) ->
  signup (E := sqlite_engine) salt data s = (inr r, s') ->
  status r = 201 ->
  exists u id,
    su_username data = Some u
    /\ body r = [("message", "User registered successfully"); ("user_id", id)]
    /\ find_table s' "User"
       = Some (Table (tname t) (tcols t)
                 (trows t ++
                  [[VText id; VText u; param (su_email data);
                    VText (generate_password_hash salt (su_password data));
                    VInt (match su_role data with Some x => x | None => 1 end)]]))
    /\ find (fun r' => where_eq (E := sqlite_engine) (column_at (tcols t) 1)
                         (cell r' 1) (VText u)) (trows t) = None.
Proof.
  intros Ht Hcols Hrun H201.
  destruct (signup_created _ _ _ _ _ _ _ Ht Hcols Hrun H201)
    as (u & rows & n & Hu & Hsel & _ & _ & _ & -> & ->).
  exists u, ("U" ++ Py.format_03d n)%string. repeat split; try assumption.
  - apply (find_set_table _ _ t); [exact Ht|]. cbn [tname].
    exact (find_table_name _ _ _ Ht).
  - apply filter_nil_find. unfold select_where in Hsel. rewrite Ht, Hcols in Hsel.
    rewrite Hcols. destruct key; cbn [resolve] in Hsel;
      injection Hsel as Hsel; exact Hsel.
Qed.

(** X1: a user who has just signed up can log in with the same password. *)
Theorem signup_then_login (key : bool) (salt : string) (data : signup_data)
  (s s' : store) (t : table) (r : response) :
  find_table s "User" = Some t ->
  tcols t = tcols (User_table key []) ->
  check_password_hash (generate_password_hash salt (su_password data))
    (su_password data) = true ->
  signup (E := sqlite_engine) salt data s = (inr r, s') ->
  status r = 201 ->
  login (E := sqlite_engine) (LoginData (su_username data) (su_password data)) s'
  = inr (Response 200 [("message", "Login successful")]).
Proof.
  intros Ht Hcols Hcheck Hrun H201.
  destruct (signup_stored _ _ _ _ _ _ _ Ht Hcols Hrun H201)
    as (u & id & Hu & _ & Hfind & Hnone).
  rewrite (login_by_first_row _ s' _ 3 1 Hfind);
    [|rewrite Hcols; destruct key; reflexivity
     |rewrite Hcols; destruct key; reflexivity].
  cbn [li_username li_password tcols trows]. rewrite Hu. cbn [param].
  rewrite (find_app_last _ _ _ Hnone).
  - cbn [cell nth]. rewrite Hcheck. reflexivity.
  - rewrite Hcols. destruct key; cbn; apply String.eqb_refl.
Qed.

Lemma filter_app_last {A : Type} (f : A -> bool) (l : list A) (x : A) :
  f x = true -> exists a l', filter f (l ++ [x]) = a :: l'.
Proof.
  intros Hx. rewrite filter_app. cbn [filter]. rewrite Hx.
  destruct (filter f l) as [|a l']; cbn; eauto.
Qed.

(** X2: once a username is registered, another signup with it is answered
    409 and stores nothing. *)
Theorem signup_twice_same_username (key : bool) (salt salt' : string)
  (data data' : signup_data) (s s' : store) (t : table) (r : response) :
  find_table s "User" = Some t ->
  tcols t = tcols (User_table key []) ->
  signup (E := sqlite_engine) salt data s = (inr r, s') ->
  status r = 201 ->
  su_username data' = su_username data ->
  signup (E := sqlite_engine) salt' data' s'
  = (inr (Response 409 [("error", "Username already exists")]), s').
Proof.
  intros Ht Hcols Hrun H201 Hsame.
  destruct (signup_stored _ _ _ _ _ _ _ Ht Hcols Hrun H201)
    as (u & id & Hu & _ & Hfind & _).
  unfold signup, select_where. rewrite Hsame, Hu, Hfind. cbn [tcols trows param].
  rewrite Hcols.
  assert (Hres : resolve (tcols (User_table key [])) "username" = Some 1%nat)
    by (destruct key; reflexivity).
  rewrite Hres.
  edestruct (filter_app_last
               (fun r0 => where_eq (E := sqlite_engine)
                            (column_at (tcols (User_table key [])) 1)
                            (cell r0 1) (VText u)) (trows t)) as (a & l' & ->);
    [|reflexivity].
  destruct key; cbn; apply String.eqb_refl.
Qed.

(** X3: once an email is registered, a signup with a new username and that
    email is answered 409 and stores nothing. *)
Theorem signup_twice_same_email (key : bool) (salt salt' : string)
  (data data' : signup_data) (s s' : store) (t : table) (r : response)
  (email : string) :
  find_table s "User" = Some t ->
  tcols t = tcols (User_table key []) ->
  signup (E := sqlite_engine) salt data s = (inr r, s') ->
  status r = 201 ->
  su_email data = Some email ->
  su_email data' = Some email ->
  select_where (E := sqlite_engine) s' "User" "username" (param (su_username data'))
  = inr [] ->
  signup (E := sqlite_engine) salt' data' s'
  = (inr (Response 409 [("error", "Email already registered")]), s').
Proof.
  intros Ht Hcols Hrun H201 He He' Hfresh.
  destruct (signup_stored _ _ _ _ _ _ _ Ht Hcols Hrun H201)
    as (u & id & Hu & _ & Hfind & _).
  unfold signup. rewrite Hfresh. unfold select_where.
  rewrite He', Hfind. rewrite He. cbn [tcols trows param]. rewrite Hcols.
  assert (Hres : resolve (tcols (User_table key [])) "email" = Some 2%nat)
    by (destruct key; reflexivity).
  rewrite Hres.
  edestruct (filter_app_last
               (fun r0 => where_eq (E := sqlite_engine)
                            (column_at (tcols (User_table key [])) 2)
                            (cell r0 2) (VText email)) (trows t)) as (a & l' & ->);
    [|reflexivity].
  destruct key; cbn; apply String.eqb_refl.
Qed.

(** X4: the email of a user who has just signed up is found by
    [forgot_password]. *)
Theorem signup_then_forgot_password (key : bool) (salt : string)
  (data : signup_data) (s s' : store) (t : table) (r : response) (email : string) :
  find_table s "User" = Some t ->
  tcols t = tcols (User_table key []) ->
  signup (E := sqlite_engine) salt data s = (inr r, s') ->
  status r = 201 ->
  su_email data = Some email ->
  forgot_password (E := sqlite_engine) (Some email) s'
  = inr (Response 200 [("message", "Email found")]).
Proof.
  intros Ht Hcols Hrun H201 He.
  destruct (signup_stored _ _ _ _ _ _ _ Ht Hcols Hrun H201)
    as (u & id & Hu & _ & Hfind & _).
  unfold forgot_password, select_where. rewrite Hfind, He.
  cbn [tcols trows param]. rewrite Hcols.
  assert (Hres : resolve (tcols (User_table key [])) "email" = Some 2%nat)
    by (destruct key; reflexivity).
  rewrite Hres.
  edestruct (filter_app_last
               (fun r0 => where_eq (E := sqlite_engine)
                            (column_at (tcols (User_table key [])) 2)
                            (cell r0 2) (VText email)) (trows t)) as (a & l' & ->);
    [|reflexivity].
  destruct key; cbn; apply String.eqb_refl.
Qed.

Lemma identifiers_to_999 :
  forallb (fun k => let m := Z.of_nat k in
             match Py.int (Py.format_03d m) with
             | Some m' => m' =? m
             | None => false
             end) (seq 0 1000) = true
  /\ forallb (fun k => let m := Z.of_nat k in
                String.ltb ("U" ++ Py.format_03d m) ("U" ++ Py.format_03d (m + 1)))
       (seq 0 999) = true.
Proof. split; vm_compute; reflexivity. Qed.

Lemma identifier_parses (m : Z) :
  0 <= m <= 999 -> Py.int (Py.format_03d m) = Some m.
Proof.
  intros Hm. destruct identifiers_to_999 as [Hall _].
  rewrite forallb_forall in Hall.
  specialize (Hall (Z.to_nat m)). rewrite Z2Nat.id in Hall by lia.
  cbv zeta in Hall.
  destruct (Py.int (Py.format_03d m)) as [m'|].
  - f_equal. apply Z.eqb_eq, Hall, in_seq. lia.
  - discriminate Hall. apply in_seq. lia.
Qed.

Lemma identifier_sorts_later (m : Z) :
  0 <= m <= 998 ->
  String.ltb ("U" ++ Py.format_03d m) ("U" ++ Py.format_03d (m + 1)) = true.
Proof.
  intros Hm. destruct identifiers_to_999 as [_ Hall].
  rewrite forallb_forall in Hall.
  specialize (Hall (Z.to_nat m)). rewrite Z2Nat.id in Hall by lia.
  apply Hall, in_seq. lia.
Qed.

Lemma new_num_after (m : Z) :
  0 <= m <= 999 -> new_num [[VText ("U" ++ Py.format_03d m)]] = inr (m + 1).
Proof.
  intros Hm. unfold new_num. cbn [cell nth truthy Py.truthy append Py.tail].
  rewrite (identifier_parses m Hm). reflexivity.
Qed.

(** X5: below U999 the identifiers of successive signups are consecutive:
    when the latest identifier is the zero-padded U<m>, the next two
    successful signups are given U<m+1> and U<m+2>. *)
Theorem signup_identifiers_consecutive (key : bool) (salt1 salt2 : string)
  (d1 d2 : signup_data) (s s1 s2 : store) (t : table) (r1 r2 : response) (m : Z) :
  find_table s "User" = Some t ->
  tcols t = tcols (User_table key []) ->
  0 <= m <= 998 ->
  select_last (E := sqlite_engine) s "User" "user_id"
  = inr [[VText ("U" ++ Py.format_03d m)]] ->
  signup (E := sqlite_engine) salt1 d1 s = (inr r1, s1) ->
  status r1 = 201 ->
  signup (E := sqlite_engine) salt2 d2 s1 = (inr r2, s2) ->
  status r2 = 201 ->
  r1 = Response 201 [("message", "User registered successfully");
                     ("user_id", "U" ++ Py.format_03d (m + 1))%string]
  /\ r2 = Response 201 [("message", "User registered successfully");
                        ("user_id", "U" ++ Py.format_03d (m + 2))%string].
Proof.
  intros Ht Hcols Hm Hlast Hrun1 H1 Hrun2 H2.
  destruct (signup_created _ _ _ _ _ _ _ Ht Hcols Hrun1 H1)
    as (u1 & rows1 & n1 & _ & _ & _ & Hl1 & Hn1 & -> & Hs1).
  assert (Hrows1 : rows1 = [[VText ("U" ++ Py.format_03d m)]]) by congruence.
  subst rows1. rewrite new_num_after in Hn1 by lia. injection Hn1 as <-.
  split; [reflexivity|].
  assert (Ht1 : find_table s1 "User"
                = Some (Table (tname t) (tcols t)
                          (trows t ++
                           [[VText ("U" ++ Py.format_03d (m + 1)); VText u1;
                             param (su_email d1);
                             VText (generate_password_hash salt1 (su_password d1));
                             VInt (match su_role d1 with Some x => x | None => 1 end)]]))).
  { rewrite Hs1. apply (find_set_table _ _ t); [exact Ht|]. cbn [tname].
    exact (find_table_name _ _ _ Ht). }
  destruct (signup_created _ _ _ _ _ _ _ Ht1 Hcols Hrun2 H2)
    as (u2 & rows2 & n2 & _ & _ & _ & Hl2 & Hn2 & -> & _).
  unfold select_last in Hl2, Hlast. rewrite Ht1 in Hl2. rewrite Ht in Hlast.
  cbn [tcols trows] in Hl2. rewrite Hcols in Hl2, Hlast.
  assert (Hres : resolve (tcols (User_table key [])) "user_id" = Some 0%nat)
    by (destruct key; reflexivity).
  rewrite Hres in Hl2, Hlast.
  rewrite map_app, fold_left_app in Hl2.
  destruct (fold_left later (map (fun r => cell r 0) (trows t)) None) as [v|];
    [|discriminate].
  injection Hlast as ->. cbn [map fold_left cell nth later] in Hl2.
  assert (Hlt : value_ltb (Engine := sqlite_engine)
                  (VText (String "U" (Py.format_03d m)))
                  (VText ("U" ++ Py.format_03d (m + 1))) = true).
  { apply (identifier_sorts_later m). lia. }
  rewrite Hlt in Hl2.
  assert (Hrows2 : rows2 = [[VText ("U" ++ Py.format_03d (m + 1))]])
    by congruence.
  subst rows2. rewrite new_num_after in Hn2 by lia.
  injection Hn2 as <-. replace (m + 1 + 1) with (m + 2) by lia. reflexivity.
Qed.

End MoreHandlerFacts.

Section ResetFacts.

Context {H : Hasher} {E : Engine}.

Lemma update_where_other_table (s s' : store) (n m : string)
  (sets : list (string * value)) (col : string) (p : value) :
  update_where s n sets col p = inr s' -> name_eqb n m = false ->
  find_table s' m = find_table s m.
Proof.
  unfold update_where. intros Hup Hnm.
  destruct (find_table s n) as [t|] eqn:Ht; [|discriminate].
  destruct (resolve_sets (tcols t) sets); [discriminate|].
  destruct (resolve (tcols t) col); [|discriminate].
  destruct (existsb _ _); [discriminate|].
  destruct (existsb _ _); [discriminate|].
  destruct (update_clash _ _ _); [discriminate|].
  injection Hup as <-. apply find_set_table_other; [exact Hnm|].
  cbn [tname]. exact (find_table_name _ _ _ Ht).
Qed.

Lemma login_reads_User (data : login_data) (s1 s2 : store) :
  find_table s1 "User" = find_table s2 "User" -> login data s1 = login data s2.
Proof.
  intros Heq. unfold login, select_column_where, select_where. rewrite Heq.
  reflexivity.
Qed.

(** X6: [reset_password] writes the table [users], which [login] does not
    read: whatever the request, the table [User] is as before and every
    login is answered as it was before the reset. *)
Theorem reset_password_changes_no_login (salt : string) (data : reset_data)
  (s : store) (attempt : login_data) :
  find_table (snd (reset_password salt data s)) "User" = find_table s "User"
  /\ login attempt (snd (reset_password salt data s)) = login attempt s.
Proof.
  assert (Hsame : find_table (snd (reset_password salt data s)) "User"
                  = find_table s "User").
  { unfold reset_password. destruct (missing _ || missing _); [reflexivity|].
    destruct (update_where _ _ _ _ _) as [e|s'] eqn:Hup; [reflexivity|].
    cbn [snd]. apply (update_where_other_table _ _ _ _ _ _ _ Hup). reflexivity. }
  split; [exact Hsame | apply login_reads_User, Hsame].
Qed.

(** X7: a reset for an email that no row of [users] holds is answered 200
    like any other, and changes nothing. *)
Theorem reset_password_unknown_email (salt email new_password : string)
  (s : store) (t : table) :
  Py.truthy email = true ->
  Py.truthy new_password = true ->
  find_table s "users" = Some t ->
  In "password" (map cname (tcols t)) ->
  select_where s "users" "email" (VText email) = inr [] ->
  reset_password salt (ResetData (Some email) (Some new_password)) s
  = (inr (Response 200 [("message", "Password has been successfully updated")]),
     s).
Proof.
  intros He Hp Ht Hcol Hsel. unfold reset_password.
  cbn [rp_email rp_new_password missing text_of param]. rewrite He, Hp.
  cbn [negb orb].
  rewrite (update_where_no_match _ _ _ _ _ _ Ht); [reflexivity| |exact Hsel].
  intros n v [Heq|[]]. injection Heq as <- _. exact Hcol.
Qed.

End ResetFacts.

(** ** Viewing and deleting records *)





Section RecordFacts.

Context {E : Engine}.

Lemma view_table_data_missing_run (name : string) (s : store)
  (inp : list string) (out : list output) :
  find_table s name = None ->
  view_table_data name (World s inp None out)
  = (inr tt,
     World s inp None (out ++ [Err "Error viewing table data" (NoSuchTable name)])).
Proof.
  intros Ht. unfold view_table_data, try_sqlite, bind at 1, query, bind, step,
    select_all.
  cbn [fault db]. rewrite Ht. reflexivity.
Qed.

(** X9: for a plain identifier that names no table, [update_record] and
    [delete_record] end with the no-primary-key error, not with a missing
    table: the pragma they read the key from has no row for it. *)
Theorem update_and_delete_on_missing_table (name : string) (s : store)
  (inp : list string) (out : list output) :
  identifier name = true ->
  find_table s name = None ->
  update_record name (World s inp None out)
  = (inr tt,
     World s inp None
       (out ++ [Msg ("Error: No primary key found in table " ++ name)]))
  /\ delete_record name (World s inp None out)
     = (inr tt,
        World s inp None
          (out ++ [Err "Error viewing table data" (NoSuchTable name);
                   Msg ("Error: No primary key found in table " ++ name)])).
Proof.
  intros _ Ht.
  assert (Hpk : no_primary_key (primary_key_of (table_info s name)) = true).
  { unfold table_info. rewrite Ht. reflexivity. }
  split; [apply update_record_no_primary_key, Hpk|].
  unfold delete_record, try_sqlite.
  rewrite (bind_run _ _ _ _ _ (view_table_data_missing_run _ _ _ _ Ht)).
  rewrite (bind_run _ _ _ _ _ (pragma_run name s inp _)), Hpk.
  rewrite print_run. cbn [db stdin fault stdout]. rewrite <- app_assoc. reflexivity.
Qed.

Lemma primary_key_of_in (i : nat) (cols : list column) (pk : string) :
  primary_key_of (infos i cols) = Some pk -> In pk (map cname cols).
Proof.
  revert i. induction cols as [|c cols IH]; intros i; cbn [infos primary_key_of];
    [discriminate|].
  cbn [i_pk i_name]. destruct (negb (cpk c =? 0)%nat).
  - intros Heq. injection Heq as <-. left. reflexivity.
  - intros Hpk. right. exact (IH _ Hpk).
Qed.

(** What [delete_record] does on a table with a primary key, once the
    two answers are in. *)
Lemma delete_record_run (name : string) (s : store) (t : table)
  (pk record_id confirm : string) (rest : list string) (out : list output) :
  find_table s name = Some t ->
  primary_key_of (table_info s name) = Some pk ->
  Py.truthy pk = true ->
  delete_record name (World s (record_id :: confirm :: rest) None out)
  = if (Py.lower confirm =? "y")%string then
      match delete_where s name pk (VText record_id) with
      | inl e =>
          (inr tt,
           World s rest None
             (out ++ [shown name t; Err "Error deleting record" e]))
      | inr s' =>
          (inr tt,
           World s' rest None
             (out ++ [shown name t; Msg "Record deleted successfully"]))
      end
    else
      (inr tt, World s rest None (out ++ [shown name t; Msg "Deletion cancelled"])).
Proof.
  intros Ht Hpk Htr. unfold delete_record, try_sqlite.
  rewrite (bind_run _ _ _ _ _ (view_table_data_run _ _ _ _ _ Ht)).
  rewrite (bind_run _ _ _ _ _ (pragma_run name s _ _)), Hpk.
  cbn [no_primary_key pk_name]. rewrite Htr. cbn [negb].
  rewrite !bind_input_run.
  destruct (Py.lower confirm =? "y")%string.
  - unfold bind. rewrite execute_with_run by reflexivity.
    destruct (delete_where s name pk (VText record_id));
      rewrite print_run; cbn [db stdin fault stdout]; rewrite <- app_assoc;
      reflexivity.
  - rewrite print_run. cbn [db stdin fault stdout]. rewrite <- app_assoc.
    reflexivity.
Qed.

Lemma filter_filter_negb {A : Type} (f : A -> bool) (l : list A) :
  filter f (filter (fun a => negb (f a)) l) = [].
Proof.
  induction l as [|a l IH]; simpl; [reflexivity|].
  destruct (f a) eqn:Hf; simpl; [exact IH | rewrite Hf; exact IH].
Qed.

(** X10: a confirmed delete removes the rows the key value selects and no
    other: every row of the table is either still there or was one of the
    selected rows, nothing is added, and a lookup of the key value finds
    nothing afterwards. *)
Theorem delete_record_removes_selected (name : string) (s : store) (t : table)
  (pk record_id confirm : string) (rest : list string) (out : list output)
  (gone : list row) :
  find_table s name = Some t ->
  primary_key_of (table_info s name) = Some pk ->
  Py.truthy pk = true ->
  Py.lower confirm = "y" ->
  select_where s name pk (VText record_id) = inr gone ->
  exists s' t',
    delete_record name (World s (record_id :: confirm :: rest) None out)
    = (inr tt,
       World s' rest None
         (out ++ [shown name t; Msg "Record deleted successfully"]))
    /\ find_table s' name = Some t'
    /\ tcols t' = tcols t
    /\ (forall r, In r (trows t) <-> In r (trows t') \/ In r gone)
    /\ select_where s' name pk (VText record_id) = inr [].
Proof.
  intros Ht Hpk Htr Hy Hsel.
  rewrite (delete_record_run _ _ _ _ _ _ _ _ Ht Hpk Htr), Hy.
  cbn [String.eqb Ascii.eqb Bool.eqb].
  unfold delete_where. unfold select_where in Hsel. rewrite Ht in *.
  destruct (resolve (tcols t) pk) as [k|] eqn:Hk; [|discriminate].
  injection Hsel as <-.
  set (f := fun r => where_eq (column_at (tcols t) k) (cell r k) (VText record_id)).
  eexists. eexists. split; [reflexivity|].
  assert (Hf : find_table
                 (set_table s name
                    (Table (tname t) (tcols t)
                       (filter (fun r => negb (f r)) (trows t)))) name
               = Some (Table (tname t) (tcols t)
                         (filter (fun r => negb (f r)) (trows t)))).
  { apply (find_set_table _ _ t); [exact Ht|]. cbn [tname].
    exact (find_table_name _ _ _ Ht). }
  split; [exact Hf|]. split; [reflexivity|]. split.
  - intros r. cbn [trows]. rewrite !filter_In. destruct (f r); cbn; tauto.
  - unfold select_where. unfold f in Hf |- *. rewrite Hf. cbn [tcols trows]. rewrite Hk.
    f_equal. apply filter_filter_negb.
Qed.

(** X11: a confirmed delete whose key value selects no row reports success
    and leaves the store as it is. *)
Theorem delete_of_missing_record_reports_success (name : string) (s : store)
  (t : table) (pk record_id confirm : string) (rest : list string)
  (out : list output) :
  find_table s name = Some t ->
  primary_key_of (table_info s name) = Some pk ->
  Py.truthy pk = true ->
  Py.lower confirm = "y" ->
  select_where s name pk (VText record_id) = inr [] ->
  delete_record name (World s (record_id :: confirm :: rest) None out)
  = (inr tt,
     World s rest None (out ++ [shown name t; Msg "Record deleted successfully"])).
Proof.
  intros Ht Hpk Htr Hy Hsel.
  rewrite (delete_record_run _ _ _ _ _ _ _ _ Ht Hpk Htr), Hy.
  cbn [String.eqb Ascii.eqb Bool.eqb].
  unfold delete_where. unfold select_where in Hsel. rewrite Ht in *.
  destruct (resolve (tcols t) pk) as [k|] eqn:Hk; [|discriminate].
  injection Hsel as Hsel.
  assert (Hrows : filter (fun r => negb (where_eq (column_at (tcols t) k)
                                           (cell r k) (VText record_id)))
                    (trows t) = trows t).
  { apply forallb_filter_id, forallb_forall. intros r Hr.
    destruct (where_eq _ _ _) eqn:Hw; [|reflexivity].
    assert (Hin : In r (filter (fun r => where_eq (column_at (tcols t) k)
                                           (cell r k) (VText record_id))
                          (trows t))) by (apply filter_In; auto).
    rewrite Hsel in Hin. contradiction. }
  rewrite Hrows. destruct t as [tn tc tr]. cbn [tname tcols trows].
  rewrite (set_table_same _ _ _ Ht). reflexivity.
Qed.

(** X12: any confirmation other than y (in either case) cancels the delete:
    nothing is removed. *)
Theorem delete_record_unconfirmed (name : string) (s : store) (t : table)
  (pk record_id confirm : string) (rest : list string) (out : list output) :
  find_table s name = Some t ->
  primary_key_of (table_info s name) = Some pk ->
  Py.truthy pk = true ->
  Py.lower confirm <> "y" ->
  delete_record name (World s (record_id :: confirm :: rest) None out)
  = (inr tt, World s rest None (out ++ [shown name t; Msg "Deletion cancelled"])).
Proof.
  intros Ht Hpk Htr Hy.
  rewrite (delete_record_run _ _ _ _ _ _ _ _ Ht Hpk Htr).
  apply String.eqb_neq in Hy. rewrite Hy. reflexivity.
Qed.

End RecordFacts.

(** ** Updating and inserting records *)

Section MoreRecordFacts.

Context {E : Engine}.

Lemma update_where_rows (s s' : store) (name : string) (t : table)
  (sets : list (string * value)) (col : string) (param : value) (k : nat) :
  find_table s name = Some t ->
  resolve (tcols t) col = Some k ->
  update_where s name sets col param = inr s' ->
  exists rows',
    find_table s' name = Some (Table (tname t) (tcols t) rows')
    /\ forall i r r',
         nth_error (trows t) i = Some r -> nth_error rows' i = Some r' ->
         where_eq (column_at (tcols t) k) (cell r k) param = false -> r' = r.
Proof.
  intros Ht Hk Hup. unfold update_where in Hup. rewrite Ht, Hk in Hup.
  destruct (resolve_sets (tcols t) sets) as [e|a]; [discriminate|].
  destruct (existsb _ _); [discriminate|].
  destruct (existsb _ _); [discriminate|].
  destruct (update_clash _ _ _); [discriminate|].
  injection Hup as <-. eexists. split.
  - apply (find_set_table _ _ t); [exact Ht|]. cbn [tname].
    apply (find_table_name _ _ _ Ht).
  - intros i r r' Hr Hr' Hw. rewrite map_map, nth_error_map, Hr in Hr'.
    cbn [option_map] in Hr'. rewrite Hw in Hr'. cbn [snd] in Hr'. congruence.
Qed.

(** X13: [update_record] leaves every row alone whose primary key the given
    value does not select. *)
Theorem update_keeps_other_rows (name : string) (s : store) (t : table)
  (pkval : string) (answers rest : list string) (out : list output) (k : nat) :
  find_table s name = Some t ->
  resolve (tcols t) (pk_name (primary_key_of (table_info s name))) = Some k ->
  List.length answers
  = asked (pk_name (primary_key_of (table_info s name))) (table_info s name) ->
  exists t',
    find_table (db (snd (update_record name
                           (World s (pkval :: answers ++ rest) None out)))) name
    = Some t'
    /\ forall i r r',
         nth_error (trows t) i = Some r -> nth_error (trows t') i = Some r' ->
         where_eq (column_at (tcols t) k) (cell r k) (VText pkval) = false ->
         r' = r.
Proof.
  intros Ht Hk Hlen.
  assert (Hsame : forall w', db w' = s ->
            exists t', find_table (db w') name = Some t'
              /\ forall i r r',
                   nth_error (trows t) i = Some r ->
                   nth_error (trows t') i = Some r' ->
                   where_eq (column_at (tcols t) k) (cell r k) (VText pkval)
                   = false -> r' = r).
  { intros w' ->. exists t. split; [exact Ht|]. intros; congruence. }
  destruct (no_primary_key (primary_key_of (table_info s name))) eqn:Hno.
  - rewrite (update_record_no_primary_key _ _ _ _ Hno). apply Hsame. reflexivity.
  - destruct (primary_key_of (table_info s name)) as [pk|] eqn:Hpk;
      [|discriminate]. cbn [no_primary_key pk_name] in *.
    apply negb_false_iff in Hno.
    rewrite (update_record_run _ _ _ _ _ _ _ _ Ht Hpk Hno Hlen).
    destruct (changes (plan pk (table_info s name) answers)) as [|u ups];
      [apply Hsame; reflexivity|].
    destruct (update_where s name (u :: ups) pk (VText pkval)) as [e|s'] eqn:Hup;
      [apply Hsame; reflexivity|].
    cbn [snd db].
    destruct (update_where_rows _ _ _ _ _ _ _ _ Ht Hk Hup) as (rows' & Hf & Hrows).
    eexists. split; [exact Hf | exact Hrows].
Qed.

Lemma changes_all_empty (pk : string) (columns : list info) (answers : list string) :
  Forall (fun a => a = "") answers -> changes (plan pk columns answers) = [].
Proof.
  revert answers. induction columns as [|c columns IH]; intros answers Hall;
    cbn [plan]; [reflexivity|].
  destruct (negb (i_name c =? pk)%string).
  - destruct Hall as [|a answers -> Hall]; cbn [changes Py.truthy]; apply IH; auto.
  - cbn [changes]. apply IH, Hall.
Qed.

(** X14: when every answer is empty, [update_record] issues no statement:
    it prints that no changes were made and the store is as before. *)
Theorem update_without_answers_changes_nothing (name : string) (s : store)
  (t : table) (pk pkval : string) (answers rest : list string)
  (out : list output) :
  find_table s name = Some t ->
  primary_key_of (table_info s name) = Some pk ->
  Py.truthy pk = true ->
  List.length answers = asked pk (table_info s name) ->
  Forall (fun a => a = "") answers ->
  update_record name (World s (pkval :: answers ++ rest) None out)
  = (inr tt, World s rest None (out ++ [shown name t; Msg "No changes made"])).
Proof.
  intros Ht Hpk Htr Hlen Hall.
  rewrite (update_record_run _ _ _ _ _ _ _ _ Ht Hpk Htr Hlen).
  rewrite changes_all_empty by exact Hall. reflexivity.
Qed.

(** *** Inserts *)











End MoreRecordFacts.

(** ** Renaming and re-adding columns *)










(** ** Deleting a table *)



Lemma select_table_skips (tables junk lines : list string) :
  forallb (rejected tables) junk = true ->
  fst (select_table tables (junk ++ lines)) = fst (select_table tables lines).
Proof.
  induction junk as [|line junk IH]; intros Hj; [reflexivity|].
  cbn [forallb] in Hj. apply andb_true_iff in Hj as [Hline Hj].
  unfold rejected in Hline. apply andb_true_iff in Hline as [Hc Hn].
  apply negb_true_iff in Hc. cbn [app select_table]. rewrite Hc.
  specialize (IH Hj).
  destruct (Py.int (Py.strip line)) as [k|].
  - apply negb_true_iff in Hn. rewrite Hn.
    destruct (select_table tables (junk ++ lines)) as [[sel rest] printed].
    exact IH.
  - destruct (select_table tables (junk ++ lines)) as [[sel rest] printed].
    exact IH.
Qed.




Lemma table_names_run (s : store) (inp : list string) (out : list output) :
  query table_names (World s inp None out)
  = (inr (map tname s), World s inp None out).
Proof. reflexivity. Qed.

Lemma count_rows_run (s : store) (n : string) (inp : list string)
  (out : list output) :
  query (fun s0 => count_rows s0 n) (World s inp None out)
  = match count_rows s n with
    | inl e => (inl (SqliteError e), World s inp None out)
    | inr c => (inr c, World s inp None out)
    end.
Proof.
  unfold query, bind, step. cbn [fault db]. destruct (count_rows s n); reflexivity.
Qed.



(** What [delete_table] does once the catalog is read: the selection
    loop, then the confirmation. *)
Lemma delete_table_run (s : store) (inp : list string) (out : list output) :
  s <> [] ->
  delete_table (World s inp None out)
  = match select_table (map tname s) inp with
    | (Cancelled, rest, printed) => (inr tt, World s rest None (out ++ printed))
    | (EndOfInput, rest, printed) =>
        (inl EOFError, World s rest None (out ++ printed))
    | (Selected n, rest, printed) =>
        try_sqlite (confirm_delete n)
          (fun e => print (Err "Error deleting table" e))
          (World s rest None (out ++ printed))
    end.
Proof.
  intros Hne. unfold delete_table, try_sqlite.
  rewrite (bind_run _ _ _ _ _ (table_names_run s inp out)).
  destruct s as [|t0 s0]; [contradiction|]. cbn [map].
  unfold bind, ask_table. cbn [stdin db fault stdout].
  destruct (select_table (tname t0 :: map tname s0) inp) as [[[|n|] rest] printed];
    reflexivity.
Qed.




Lemma confirm_delete_shape (s : store) (n : string) (inp : list string) :
  exists (r : exn + unit) (s' : store) (rest : list string) (added : list output),
    forall out,
      try_sqlite (confirm_delete n) (fun e => print (Err "Error deleting table" e))
        (World s inp None out)
      = (r, World s' rest None (out ++ added)).
Proof.
  unfold try_sqlite, confirm_delete.
  destruct (count_rows s n) as [e|c] eqn:Hc.
  { exists (inr tt), s, inp, [Err "Error deleting table" e]. intros out.
    rewrite (bind_run _ _ _ _ _ (pragma_run n s _ _)).
    unfold bind at 1. rewrite count_rows_run, Hc. reflexivity. }
  destruct inp as [|confirm rest].
  { exists (inl EOFError), s, [],
      [Msg ("This table contains " ++ Py.str c ++ " rows.")]. intros out.
    rewrite (bind_run _ _ _ _ _ (pragma_run n s _ _)).
    unfold bind at 1. rewrite count_rows_run, Hc. reflexivity. }
  destruct (Py.lower (Py.strip confirm) =? "yes")%string eqn:Hyes.
  - destruct (find_table s n) as [t|] eqn:Ht.
    + exists (inr tt), (remove_table s n), rest,
        [Msg ("This table contains " ++ Py.str c ++ " rows.");
         Msg ("Table '" ++ n ++ "' has been successfully deleted.")].
      intros out. rewrite (bind_run _ _ _ _ _ (pragma_run n s _ _)).
      unfold bind at 1. rewrite count_rows_run, Hc.
      unfold bind at 1. rewrite print_run. cbn [db stdin fault stdout].
      rewrite bind_input_run, Hyes.
      unfold bind, execute. rewrite execute_with_run by reflexivity.
      unfold drop_table. rewrite Ht, print_run. cbn [db stdin fault stdout].
      rewrite <- app_assoc. reflexivity.
    + exists (inr tt), s, rest,
        [Msg ("This table contains " ++ Py.str c ++ " rows.");
         Err "Error deleting table" (NoSuchTable n)].
      intros out. rewrite (bind_run _ _ _ _ _ (pragma_run n s _ _)).
      unfold bind at 1. rewrite count_rows_run, Hc.
      unfold bind at 1. rewrite print_run. cbn [db stdin fault stdout].
      rewrite bind_input_run, Hyes.
      unfold bind, execute. rewrite execute_with_run by reflexivity.
      unfold drop_table. rewrite Ht, print_run. cbn [db stdin fault stdout].
      rewrite <- app_assoc. reflexivity.
  - exists (inr tt), s, rest,
      [Msg ("This table contains " ++ Py.str c ++ " rows.");
       Msg "Table deletion cancelled."].
    intros out. rewrite (bind_run _ _ _ _ _ (pragma_run n s _ _)).
    unfold bind at 1. rewrite count_rows_run, Hc.
    unfold bind at 1. rewrite print_run. cbn [db stdin fault stdout].
    rewrite bind_input_run, Hyes, print_run. cbn [db stdin fault stdout].
    rewrite <- app_assoc. reflexivity.
Qed.

(** X22: answers of ASCII text that the selection loop turns down (not a
    number, or a number outside the list) are skipped: typed before any
    other input, they change neither the result, nor the store, nor what
    is left to read. *)
Theorem delete_table_skips_rejected (s : store) (junk lines : list string)
  (out : list output) :
  s <> [] ->
  forallb ascii_text junk = true ->
  forallb (rejected (map tname s)) junk = true ->
  let a := delete_table (World s (junk ++ lines) None out) in
  let b := delete_table (World s lines None out) in
  fst a = fst b /\ db (snd a) = db (snd b) /\ stdin (snd a) = stdin (snd b).
Proof.
  intros Hne _ Hj a b. unfold a, b. clear a b.
  destruct s as [|t0 s0]; [contradiction|].
  rewrite !delete_table_run by discriminate.
  pose proof (select_table_skips _ _ lines Hj) as Hskip.
  destruct (select_table (map tname (t0 :: s0)) (junk ++ lines))
    as [[sel1 rest1] printed1].
  destruct (select_table (map tname (t0 :: s0)) lines) as [[sel2 rest2] printed2].
  cbn [fst] in Hskip. injection Hskip as -> ->.
  destruct sel2 as [|n|]; try (repeat split; reflexivity).
  destruct (confirm_delete_shape (t0 :: s0) n rest2) as (r & s' & rest & added & Hrun).
  rewrite !Hrun. repeat split.
Qed.

(** X23: the word cancel, also after answers of ASCII text that were
    turned down, ends [delete_table] without dropping anything. *)
Theorem delete_table_cancelled (s : store) (junk : list string)
  (choice : string) (rest : list string) (out : list output) :
  s <> [] ->
  forallb ascii_text junk = true ->
  forallb (rejected (map tname s)) junk = true ->
  Py.lower (Py.strip choice) = "cancel" ->
  let w' := snd (delete_table (World s (junk ++ choice :: rest) None out)) in
  fst (delete_table (World s (junk ++ choice :: rest) None out)) = inr tt
  /\ db w' = s /\ stdin w' = rest.
Proof.
  intros Hne _ Hj Hc. cbv zeta. rewrite delete_table_run by exact Hne.
  pose proof (select_table_skips _ _ (choice :: rest) Hj) as Hskip.
  destruct (select_table (map tname s) (junk ++ choice :: rest))
    as [[sel1 rest1] printed1].
  cbn [select_table fst] in Hskip. rewrite Hc in Hskip.
  cbn [String.eqb Ascii.eqb Bool.eqb fst] in Hskip.
  injection Hskip as -> ->. repeat split.
Qed.

(** ** Names of tables and attributes *)

Lemma drop_underscores_alnum (name : string) :
  Py.all_alnum (Py.drop_underscores name) = true
  <-> Forall (fun c => Py.is_alnum c = true \/ c = "_"%char)
        (list_ascii_of_string name).
Proof.
  induction name as [|c name IH]; cbn [Py.drop_underscores list_ascii_of_string].
  - split; [constructor | reflexivity].
  - destruct (Ascii.eqb c "_") eqn:Hc.
    + apply Ascii.eqb_eq in Hc. subst c. rewrite IH. split.
      * intros Hall. constructor; [right; reflexivity | exact Hall].
      * intros Hall. inversion Hall. assumption.
    + cbn [Py.all_alnum]. rewrite andb_true_iff, IH. split.
      * intros [Ha Hall]. constructor; [left; exact Ha | exact Hall].
      * intros Hall. inversion Hall as [|? ? [Ha|Hu] Hrest]; subst.
        -- split; assumption.
        -- rewrite Ascii.eqb_refl in Hc. discriminate.
Qed.

Lemma drop_underscores_nonempty (name : string) :
  Py.truthy (Py.drop_underscores name) = true
  <-> Exists (fun c => c <> "_"%char) (list_ascii_of_string name).
Proof.
  induction name as [|c name IH]; cbn [Py.drop_underscores list_ascii_of_string].
  - split; [discriminate | intros Hex; inversion Hex].
  - destruct (Ascii.eqb c "_") eqn:Hc.
    + apply Ascii.eqb_eq in Hc. subst c. rewrite IH. split.
      * intros Hex. right. exact Hex.
      * intros Hex. inversion Hex as [? ? Hne|]; [contradiction | assumption].
    + apply Ascii.eqb_neq in Hc. split; [|reflexivity].
      intros _. left. exact Hc.
Qed.

(** X24: on ASCII text, the name test of [create_new_table] accepts exactly
    the names made of letters, digits and underscores that hold at least
    one letter or digit; the empty name and a name of underscores only are
    refused. *)
Theorem valid_name_spec (name : string) :
  ascii_text name = true ->
  valid_name name = true
  <-> Forall (fun c => Py.is_alnum c = true \/ c = "_"%char)
        (list_ascii_of_string name)
      /\ Exists (fun c => Py.is_alnum c = true) (list_ascii_of_string name).
Proof.
  intros _. unfold valid_name, Py.isalnum.
  rewrite negb_true_iff, orb_false_iff, !negb_false_iff, andb_true_iff.
  rewrite drop_underscores_alnum, drop_underscores_nonempty. split.
  - intros (_ & Hex & Hall). split; [exact Hall|].
    rewrite Forall_forall in Hall. apply Exists_exists in Hex as (c & Hin & Hne).
    apply Exists_exists. exists c. split; [exact Hin|].
    destruct (Hall c Hin) as [Ha|Hu]; [exact Ha | contradiction].
  - intros (Hall & Hex). apply Exists_exists in Hex as (c & Hin & Ha).
    assert (Hne : c <> "_"%char) by (intros ->; discriminate).
    split; [|split; [|exact Hall]].
    + destruct name; [contradiction | reflexivity].
    + apply Exists_exists. eauto.
Qed.

(** ** The further properties on concrete stores *)

Lemma signup_then_login_witness :
  login (H := tagged_hasher) (E := sqlite_engine)
    (LoginData (Some "amy") "secret") eight_users
  = inr (Response 200 [("message", "Login successful")]).
Proof.
  apply (signup_then_login (H := tagged_hasher) false "salt"
           (request "amy" "amy@example.com") seven_users eight_users
           (User_table false [user_007]) (registered "U008"));
    reflexivity.
Defined.

Lemma signup_twice_same_username_witness :
  signup (H := tagged_hasher) (E := sqlite_engine) "pepper"
    (request "amy" "amy@example.org") eight_users
  = (inr (Response 409 [("error", "Username already exists")]), eight_users).
Proof.
  apply (signup_twice_same_username (H := tagged_hasher) false "salt" "pepper"
           (request "amy" "amy@example.com") (request "amy" "amy@example.org")
           seven_users eight_users (User_table false [user_007])
           (registered "U008"));
    reflexivity.
Defined.

Lemma signup_twice_same_email_witness :
  signup (H := tagged_hasher) (E := sqlite_engine) "pepper"
    (request "bob" "amy@example.com") eight_users
  = (inr (Response 409 [("error", "Email already registered")]), eight_users).
Proof.
  apply (signup_twice_same_email (H := tagged_hasher) false "salt" "pepper"
           (request "amy" "amy@example.com") (request "bob" "amy@example.com")
           seven_users eight_users (User_table false [user_007])
           (registered "U008") "amy@example.com");
    reflexivity.
Defined.

Lemma signup_then_forgot_password_witness :
  forgot_password (E := sqlite_engine) (Some "amy@example.com") eight_users
  = inr (Response 200 [("message", "Email found")]).
Proof.
  apply (signup_then_forgot_password (H := tagged_hasher) false "salt"
           (request "amy" "amy@example.com") seven_users eight_users
           (User_table false [user_007]) (registered "U008") "amy@example.com");
    reflexivity.
Defined.

Lemma signup_identifiers_consecutive_witness :
  select_last (E := sqlite_engine) seven_users "User" "user_id"
  = inr [[VText "U007"]]
  /\ registered "U008" = registered ("U" ++ Py.format_03d (7 + 1))
  /\ registered "U009" = registered ("U" ++ Py.format_03d (7 + 2)).
Proof.
  split; [reflexivity|].
  apply (signup_identifiers_consecutive (H := tagged_hasher) false "salt" "pepper"
           (request "amy" "amy@example.com") (request "bob" "bob@example.com")
           seven_users eight_users
           (snd (signup (H := tagged_hasher) (E := sqlite_engine) "pepper"
                   (request "bob" "bob@example.com") eight_users))
           (User_table false [user_007]) (registered "U008") (registered "U009") 7);
    try reflexivity.
  lia.
Defined.

Lemma reset_password_unknown_email_witness :
  reset_password (H := tagged_hasher) (E := sqlite_engine) "salt"
    (ResetData (Some "ann@example.com") (Some "secret")) (init_db [])
  = (inr (Response 200 [("message", "Password has been successfully updated")]),
     init_db []).
Proof.
  apply (reset_password_unknown_email (H := tagged_hasher) (E := sqlite_engine)
           "salt" "ann@example.com" "secret" (init_db []) users_table);
    try reflexivity.
  right. right. right. left. reflexivity.
Defined.


Lemma update_and_delete_on_missing_table_witness :
  update_record (E := sqlite_engine) "ghosts" (World [routines] ["1"] None [])
  = (inr tt,
     World [routines] ["1"] None
       ([] ++ [Msg "Error: No primary key found in table ghosts"])).
Proof.
  apply (update_and_delete_on_missing_table (E := sqlite_engine) "ghosts"
           [routines] ["1"] []); reflexivity.
Defined.

Lemma delete_record_removes_selected_witness :
  exists s' t',
    delete_record (E := sqlite_engine) "routines"
      (World [routines] ["2"; "y"] None [])
    = (inr tt,
       World s' [] None
         ([] ++ [shown "routines" routines; Msg "Record deleted successfully"]))
    /\ find_table s' "routines" = Some t'
    /\ tcols t' = tcols routines
    /\ (forall r, In r (trows routines)
                  <-> In r (trows t')
                      \/ In r [[VInt 2; VText "Arm Day"; VText "curls"]])
    /\ select_where (E := sqlite_engine) s' "routines" "id" (VText "2") = inr [].
Proof.
  apply (delete_record_removes_selected (E := sqlite_engine) "routines" [routines]
           routines "id" "2" "y" [] [] [[VInt 2; VText "Arm Day"; VText "curls"]]);
    reflexivity.
Defined.

Lemma delete_of_missing_record_reports_success_witness :
  delete_record (E := sqlite_engine) "routines"
    (World [routines] ["99"; "Y"] None [])
  = (inr tt,
     World [routines] [] None
       ([] ++ [shown "routines" routines; Msg "Record deleted successfully"])).
Proof.
  apply (delete_of_missing_record_reports_success (E := sqlite_engine) "routines"
           [routines] routines "id" "99" "Y" [] []);
    reflexivity.
Defined.

Lemma delete_record_unconfirmed_witness :
  delete_record (E := sqlite_engine) "routines"
    (World [routines] ["1"; "yes"] None [])
  = (inr tt,
     World [routines] [] None
       ([] ++ [shown "routines" routines; Msg "Deletion cancelled"])).
Proof.
  apply (delete_record_unconfirmed (E := sqlite_engine) "routines" [routines]
           routines "id" "1" "yes" [] []);
    try reflexivity.
  discriminate.
Defined.

Lemma update_keeps_other_rows_witness :
  exists t',
    find_table (db (snd (update_record (E := sqlite_engine) "routines"
                           (World [routines] ("1" :: ["Push Day"; ""] ++ [])
                              None [])))) "routines"
    = Some t'
    /\ nth_error (trows t') 1 = nth_error (trows routines) 1.
Proof.
  destruct (update_keeps_other_rows (E := sqlite_engine) "routines" [routines]
              routines "1" ["Push Day"; ""] [] [] 0%nat)
    as (t' & Hfind & Hrows); [reflexivity | reflexivity | reflexivity |].
  exists t'. split; [exact Hfind|].
  vm_compute in Hfind. injection Hfind as <-. reflexivity.
Defined.

Lemma update_without_answers_changes_nothing_witness :
  update_record (E := sqlite_engine) "routines"
    (World [routines] ("1" :: [""; ""] ++ []) None [])
  = (inr tt,
     World [routines] [] None
       ([] ++ [shown "routines" routines; Msg "No changes made"])).
Proof.
  apply (update_without_answers_changes_nothing (E := sqlite_engine) "routines"
           [routines] routines "id" "1" [""; ""] [] []);
    try reflexivity.
  repeat constructor.
Defined.







Lemma delete_table_skips_rejected_witness :
  let a := delete_table (World [routines; plans] (["abc"; "7"] ++ ["2"; "yes"])
                           None []) in
  let b := delete_table (World [routines; plans] ["2"; "yes"] None []) in
  fst a = fst b /\ db (snd a) = db (snd b) /\ stdin (snd a) = stdin (snd b).
Proof.
  apply (delete_table_skips_rejected [routines; plans] ["abc"; "7"] ["2"; "yes"] []);
    [discriminate | reflexivity | reflexivity].
Defined.

Lemma delete_table_cancelled_witness :
  let w' := snd (delete_table
                   (World [routines; plans] (["0"] ++ " Cancel " :: ["yes"])
                      None [])) in
  fst (delete_table (World [routines; plans] (["0"] ++ " Cancel " :: ["yes"])
                       None [])) = inr tt
  /\ db w' = [routines; plans] /\ stdin w' = ["yes"].
Proof.
  apply (delete_table_cancelled [routines; plans] ["0"] " Cancel " ["yes"] []);
    [discriminate | reflexivity | reflexivity | reflexivity].
Defined.

Lemma valid_name_spec_witness :
  valid_name "leg_day_2" = true
  <-> Forall (fun c => Py.is_alnum c = true \/ c = "_"%char)
        (list_ascii_of_string "leg_day_2")
      /\ Exists (fun c => Py.is_alnum c = true) (list_ascii_of_string "leg_day_2").
Proof.
  apply (valid_name_spec "leg_day_2"). reflexivity.
Defined.

Example valid_name_examples :
  valid_name "leg_day_2" = true
  /\ valid_name "2fast" = true
  /\ valid_name "___" = false
  /\ valid_name "" = false
  /\ valid_name "leg day" = false.
Proof. repeat split. Qed.
